(** * Binance trading proxy (server.py): request signer, exchange client and
    order validator, embedded in Rocq.

    Python [str] values are modelled by their UTF-8 byte sequence (Stdlib
    [string]); Python [float] values by IEEE-754 [spec_float]; dictionaries
    by insertion-ordered association lists living in a heap of objects, so
    that in-place updates through an alias are visible to the caller. *)

From Stdlib Require Import ZArith String Ascii List Lia Bool.
From Stdlib Require Import Floats.SpecFloat.
From Stdlib Require Import DecimalString DecimalPos.
From stdpp Require Import gmap strings list.

Local Open Scope Z_scope.

(** ** hashlib.sha256 (FIPS 180-4) on byte lists *)

Module Sha256.

Definition mask32 : Z := 4294967295.
Definition w32 (x : Z) : Z := Z.land x mask32.
Definition add32 (x y : Z) : Z := w32 (x + y).
Definition rotr (n x : Z) : Z := Z.lor (Z.shiftr x n) (w32 (Z.shiftl x (32 - n))).
Definition shr (n x : Z) : Z := Z.shiftr x n.
Definition not32 (x : Z) : Z := Z.lxor x mask32.

Definition Ch (x y z : Z) : Z := Z.lxor (Z.land x y) (Z.land (not32 x) z).
Definition Maj (x y z : Z) : Z :=
  Z.lxor (Z.lxor (Z.land x y) (Z.land x z)) (Z.land y z).
Definition bsig0 (x : Z) : Z := Z.lxor (Z.lxor (rotr 2 x) (rotr 13 x)) (rotr 22 x).
Definition bsig1 (x : Z) : Z := Z.lxor (Z.lxor (rotr 6 x) (rotr 11 x)) (rotr 25 x).
Definition ssig0 (x : Z) : Z := Z.lxor (Z.lxor (rotr 7 x) (rotr 18 x)) (shr 3 x).
Definition ssig1 (x : Z) : Z := Z.lxor (Z.lxor (rotr 17 x) (rotr 19 x)) (shr 10 x).

(** The round constants are the first 32 fractional bits of the cube roots
    of the first 64 primes, the initial hash value those of the square roots
    of the first 8. *)
Definition primes : list Z :=
  [2; 3; 5; 7; 11; 13; 17; 19; 23; 29; 31; 37; 41; 43; 47; 53; 59; 61; 67; 71;
   73; 79; 83; 89; 97; 101; 103; 107; 109; 113; 127; 131; 137; 139; 149; 151;
   157; 163; 167; 173; 179; 181; 191; 193; 197; 199; 211; 223; 227; 229; 233;
   239; 241; 251; 257; 263; 269; 271; 277; 281; 283; 293; 307; 311].

(** Largest [r] below [2^k] with [r^3 <= n], found bit by bit. *)
Fixpoint cube_root (k : nat) (n r : Z) : Z :=
  match k with
  | O => r
  | S k' =>
      let c := r + 2 ^ Z.of_nat k' in
      cube_root k' n (if c * c * c <=? n then c else r)
  end.

Definition K : list Z :=
  Eval vm_compute in map (fun p => w32 (cube_root 40 (p * 2 ^ 96) 0)) primes.

Definition H0 : list Z :=
  Eval vm_compute in map (fun p => w32 (Z.sqrt (p * 2 ^ 64))) (firstn 8 primes).

(** Big-endian packing of bytes into 32-bit words and back. *)
Fixpoint words_of_bytes (bs : list Z) : list Z :=
  match bs with
  | b0 :: b1 :: b2 :: b3 :: rest =>
      (Z.lor (Z.shiftl b0 24) (Z.lor (Z.shiftl b1 16) (Z.lor (Z.shiftl b2 8) b3)))
        :: words_of_bytes rest
  | _ => []
  end.

Definition bytes_of_word (x : Z) : list Z :=
  [ Z.land (Z.shiftr x 24) 255; Z.land (Z.shiftr x 16) 255;
    Z.land (Z.shiftr x 8) 255; Z.land x 255 ].

Definition bytes_of_len64 (n : Z) : list Z :=
  bytes_of_word (Z.shiftr n 32) ++ bytes_of_word (w32 n).

(** The message schedule is grown most-recent-first: with [W t-1] at the
    head, [W t-2], [W t-7], [W t-15] and [W t-16] sit at offsets 1, 6, 14
    and 15. *)
Fixpoint schedule (n : nat) (rev_w : list Z) : list Z :=
  match n with
  | O => rev_w
  | S n' =>
      let wt := add32 (add32 (ssig1 (nth 1 rev_w 0)) (nth 6 rev_w 0))
                      (add32 (ssig0 (nth 14 rev_w 0)) (nth 15 rev_w 0)) in
      schedule n' (wt :: rev_w)
  end.

Definition round (h : list Z) (kw : Z * Z) : list Z :=
  match h with
  | [a; b; c; d; e; f; g; hh] =>
      let t1 := add32 (add32 (add32 hh (bsig1 e)) (add32 (Ch e f g) (fst kw))) (snd kw) in
      let t2 := add32 (bsig0 a) (Maj a b c) in
      [add32 t1 t2; a; b; c; add32 d t1; e; f; g]
  | _ => h
  end.

Definition compress (h : list Z) (block : list Z) : list Z :=
  let ws := rev (schedule 48 (rev (words_of_bytes block))) in
  let h' := fold_left round (combine K ws) h in
  map (fun p => add32 (fst p) (snd p)) (combine h h').

Definition pad (msg : list Z) : list Z :=
  let len := Z.of_nat (length msg) in
  msg ++ [128] ++ repeat 0 (Z.to_nat ((55 - len) mod 64)) ++ bytes_of_len64 (8 * len).

Fixpoint blocks (n : nat) (bs : list Z) (h : list Z) : list Z :=
  match n with
  | O => h
  | S n' => blocks n' (skipn 64 bs) (compress h (firstn 64 bs))
  end.

Definition digest (msg : list Z) : list Z :=
  let p := pad msg in
  flat_map bytes_of_word (firstn 8 (blocks (Nat.div (length p) 64) p H0 ++ repeat 0 8)).

End Sha256.

(** ** hmac.new(key, msg, hashlib.sha256) (RFC 2104) *)

Module Hmac.

Definition block_size : nat := 64.

Definition block_key (key : list Z) : list Z :=
  let k := if Nat.ltb block_size (length key) then Sha256.digest key else key in
  k ++ repeat 0 (block_size - length k).

Definition xor_pad (p : Z) (k : list Z) : list Z := map (Z.lxor p) k.

Definition digest (key msg : list Z) : list Z :=
  let k := block_key key in
  Sha256.digest (xor_pad 0x5c k ++ Sha256.digest (xor_pad 0x36 k ++ msg)).

End Hmac.

(** ** str.encode() and bytes.hex() *)

Definition encode (s : string) : list Z :=
  map (fun c => Z.of_N (N_of_ascii c)) (list_ascii_of_string s).

Definition hex_lower : string := "0123456789abcdef".
Definition hex_upper : string := "0123456789ABCDEF".

Definition nibble (alphabet : string) (n : Z) : ascii :=
  match String.get (Z.to_nat (Z.land n 15)) alphabet with
  | Some c => c
  | None => "0"%char
  end.

Definition hex_byte (alphabet : string) (b : Z) : string :=
  String (nibble alphabet (Z.shiftr b 4)) (String (nibble alphabet b) EmptyString).

Fixpoint hexdigest (bs : list Z) : string :=
  match bs with
  | [] => EmptyString
  | b :: rest => hex_byte hex_lower b +:+ hexdigest rest
  end.

(** ** urllib.parse.quote_plus and urlencode(params, doseq=True) *)

Definition is_unreserved (c : ascii) : bool :=
  let n := nat_of_ascii c in
  ((65 <=? n) && (n <=? 90))%nat || ((97 <=? n) && (n <=? 122))%nat
  || ((48 <=? n) && (n <=? 57))%nat
  || (n =? 95)%nat || (n =? 46)%nat || (n =? 45)%nat || (n =? 126)%nat.

Definition quote_char (c : ascii) : string :=
  if is_unreserved c then String c EmptyString
  else if (nat_of_ascii c =? 32)%nat then "+"
  else String "%" (hex_byte hex_upper (Z.of_N (N_of_ascii c))).

Fixpoint quote_plus (s : string) : string :=
  match s with
  | EmptyString => EmptyString
  | String c rest => quote_char c +:+ quote_plus rest
  end.

(** str(int) *)
Definition str_int (n : Z) : string := NilZero.string_of_int (Z.to_int n).

(** Values held by a parameter mapping: the handlers store strings, the
    client stores the integer timestamp. *)
Inductive pyval : Type :=
| VStr (s : string)
| VInt (n : Z).

Definition py_str (v : pyval) : string :=
  match v with
  | VStr s => s
  | VInt n => str_int n
  end.

(** A dict keeps its keys in insertion order. *)
Abbreviation dict := (list (string * pyval)).

Fixpoint dict_set (k : string) (v : pyval) (d : dict) : dict :=
  match d with
  | [] => [(k, v)]
  | (k', v') :: rest =>
      if String.eqb k k' then (k, v) :: rest else (k', v') :: dict_set k v rest
  end.

Fixpoint dict_get (k : string) (d : dict) : option pyval :=
  match d with
  | [] => None
  | (k', v') :: rest => if String.eqb k k' then Some v' else dict_get k rest
  end.

(** d.update(other) *)
Definition dict_update (d other : dict) : dict :=
  fold_left (fun acc kv => dict_set (fst kv) (snd kv) acc) other d.

Fixpoint join (sep : string) (l : list string) : string :=
  match l with
  | [] => EmptyString
  | [x] => x
  | x :: rest => x +:+ sep +:+ join sep rest
  end.

Definition urlencode (params : dict) : string :=
  join "&" (map (fun kv => quote_plus (fst kv) +:+ "=" +:+ quote_plus (py_str (snd kv))) params).

(** ** float: truthiness, comparison and the [.Nf] format *)

Definition float : Type := spec_float.

(** bool(x): every float except the two zeros is truthy (NaN included). *)
Definition float_bool (x : float) : bool :=
  match x with
  | S754_zero _ => false
  | _ => true
  end.

(** bool(x) for an Optional[float]. *)
Definition opt_bool (x : option float) : bool :=
  match x with
  | None => false
  | Some v => float_bool v
  end.

(** The number a float stands for: NaN, an infinity, or n * 2^e with n a
    signed integer (both zeros are 0). The same number can be written with
    several pairs (n, e); comparisons go through the number, not the
    pair. *)
Inductive float_number : Type :=
| NotANumber
| Infinite (negative : bool)
| Scaled (n e : Z).

Definition float_value (x : float) : float_number :=
  match x with
  | S754_nan => NotANumber
  | S754_infinity s => Infinite s
  | S754_zero _ => Scaled 0 0
  | S754_finite s m e => Scaled (if s then Zneg m else Zpos m) e
  end.

(** n1 * 2^e1 > n2 * 2^e2 and n1 * 2^e1 = n2 * 2^e2, decided exactly by
    bringing both to the smaller exponent. *)
Definition scaled_gt (n1 e1 n2 e2 : Z) : bool :=
  let e := Z.min e1 e2 in
  n2 * 2 ^ (e2 - e) <? n1 * 2 ^ (e1 - e).

Definition scaled_eq (n1 e1 n2 e2 : Z) : bool :=
  let e := Z.min e1 e2 in
  n1 * 2 ^ (e1 - e) =? n2 * 2 ^ (e2 - e).

(** a > b: false as soon as one side is NaN. *)
Definition float_gt (a b : float) : bool :=
  match float_value a, float_value b with
  | NotANumber, _ | _, NotANumber => false
  | Infinite sa, Infinite sb => negb sa && sb
  | Infinite sa, Scaled _ _ => negb sa
  | Scaled _ _, Infinite sb => sb
  | Scaled n1 e1, Scaled n2 e2 => scaled_gt n1 e1 n2 e2
  end.

(** a == b: false as soon as one side is NaN; the two zeros are equal. *)
Definition float_eqb (a b : float) : bool :=
  match float_value a, float_value b with
  | NotANumber, _ | _, NotANumber => false
  | Infinite sa, Infinite sb => Bool.eqb sa sb
  | Infinite _, Scaled _ _ | Scaled _ _, Infinite _ => false
  | Scaled n1 e1, Scaled n2 e2 => scaled_eq n1 e1 n2 e2
  end.

Definition is_finite (x : float) : bool :=
  match x with
  | S754_zero _ | S754_finite _ _ _ => true
  | _ => false
  end.

Definition round_half_even (num den : Z) : Z :=
  let q := num / den in
  let r := num mod den in
  if (den <? 2 * r) || ((2 * r =? den) && Z.odd q) then q + 1 else q.

(** |x| * 10^d rounded to the nearest integer, ties to even, for
    |x| = m * 2^e. *)
Definition scaled_round (d : nat) (m : positive) (e : Z) : Z :=
  if 0 <=? e then Zpos m * 2 ^ e * 10 ^ Z.of_nat d
  else round_half_even (Zpos m * 10 ^ Z.of_nat d) (2 ^ (- e)).

Definition digit_char (n : Z) : ascii := ascii_of_nat (48 + Z.to_nat (n mod 10)).

(** The [d] low decimal digits of [n], zero padded. *)
Fixpoint frac_digits (d : nat) (n : Z) : string :=
  match d with
  | O => EmptyString
  | S d' => frac_digits d' (n / 10) +:+ String (digit_char n) EmptyString
  end.

Definition fixed_digits (d : nat) (n : Z) : string :=
  let ip := str_int (n / 10 ^ Z.of_nat d) in
  match d with
  | O => ip
  | _ => ip +:+ "." +:+ frac_digits d n
  end.

Definition sign_str (s : bool) : string := if s then "-" else "".

(** f"{x:.df}" *)
Definition format_f (d : nat) (x : float) : string :=
  match x with
  | S754_nan => "nan"
  | S754_infinity s => sign_str s +:+ "inf"
  | S754_zero s => sign_str s +:+ fixed_digits d 0
  | S754_finite s m e => sign_str s +:+ fixed_digits d (scaled_round d m e)
  end.

Definition all_digits (s : string) : bool :=
  forallb (fun c => let n := nat_of_ascii c in (48 <=? n) && (n <=? 57))%nat
          (list_ascii_of_string s).

(** [s] is a decimal numeral with exactly [d] digits after the point. *)
Definition fixed_decimal (d : nat) (s : string) : Prop :=
  exists sg ip fp,
    s = sign_str sg +:+ ip +:+ "." +:+ fp /\
    ip <> EmptyString /\ all_digits ip = true /\
    all_digits fp = true /\ String.length fp = d.

(** float(n) for the integers used in examples: n = m * 2^0. *)
Definition float_of_Z (n : Z) : float :=
  match n with
  | Z0 => S754_zero false
  | Zpos p => S754_finite false p 0
  | Zneg p => S754_finite true p 0
  end.

(** ** Reading a signed string back

    The receiving side of the wire contract: the last parameter of a signed
    string is [signature], 64 hexadecimal digits; what precedes it is the
    text the signature covers. *)

Fixpoint string_take (n : nat) (s : string) : string :=
  match n, s with
  | S n', String c rest => String c (string_take n' rest)
  | _, _ => EmptyString
  end.

Fixpoint string_drop (n : nat) (s : string) : string :=
  match n, s with
  | S n', String _ rest => string_drop n' rest
  | _, _ => s
  end.

Definition signed_parts (s : string) : option (string * string) :=
  let n := String.length s in
  if (n <? 75)%nat then None
  else
    let rest := string_drop (n - 75) s in
    if String.eqb (string_take 11 rest) "&signature=" then
      Some (string_take (n - 75) s, string_drop 11 rest)
    else None.

Definition is_lower_hex (c : ascii) : bool :=
  let n := nat_of_ascii c in
  (((48 <=? n) && (n <=? 57)) || ((97 <=? n) && (n <=? 102)))%nat.

Definition all_lower_hex (s : string) : bool :=
  forallb is_lower_hex (list_ascii_of_string s).

(** ** sorted(...) of strings and the repr of a list *)

Fixpoint insert_sorted (x : string) (l : list string) : list string :=
  match l with
  | [] => [x]
  | y :: rest => if String.leb x y then x :: l else y :: insert_sorted x rest
  end.

Definition sorted (l : list string) : list string := fold_right insert_sorted [] l.

(** str.upper on ASCII text: the letters a-z are shifted to A-Z, every
    other byte is kept.  Used where a concrete upper-casing is needed. *)
Definition ascii_upper_char (c : ascii) : ascii :=
  let n := nat_of_ascii c in
  if ((97 <=? n) && (n <=? 122))%nat then ascii_of_nat (n - 32) else c.

Fixpoint ascii_upper (s : string) : string :=
  match s with
  | EmptyString => EmptyString
  | String c rest => String (ascii_upper_char c) (ascii_upper rest)
  end.

(** x > 0 *)
Definition float_positive (x : float) : bool := float_gt x (S754_zero false).

(** Each element is at most the next one, in the order sorted uses. *)
Fixpoint ascending (l : list string) : bool :=
  match l with
  | x :: rest =>
      match rest with
      | y :: _ => String.leb x y && ascending rest
      | [] => true
      end
  | [] => true
  end.

(** ** The data model of server.py *)

Inductive Side : Type := BUY | SELL.
Inductive OrderType : Type := MARKET | LIMIT.

Definition side_str (s : Side) : string :=
  match s with BUY => "BUY" | SELL => "SELL" end.
Definition type_str (t : OrderType) : string :=
  match t with MARKET => "MARKET" | LIMIT => "LIMIT" end.

(** class OrderIn(BaseModel) *)
Record OrderIn : Type := mkOrderIn {
  symbol : string;
  side : Side;
  type : OrderType;
  quote_amount : option float;
  quantity : option float;
  price : option float;
  confirmed : bool
}.

(** The fields of a request body before the model's defaults are applied:
    the three amounts default to None, [confirmed] to False. *)
Record OrderBody : Type := mkOrderBody {
  body_symbol : string;
  body_side : Side;
  body_type : OrderType;
  body_quote_amount : option float;
  body_quantity : option float;
  body_price : option float;
  body_confirmed : option bool
}.

Definition OrderIn_of_body (b : OrderBody) : OrderIn :=
  {| symbol := body_symbol b; side := body_side b; type := body_type b;
     quote_amount := body_quote_amount b; quantity := body_quantity b;
     price := body_price b;
     confirmed := match body_confirmed b with Some c => c | None => false end |}.

#[local] Unset Elimination Schemes.
Inductive json : Type :=
| JNull
| JBool (b : bool)
| JNum (x : float)
| JStr (s : string)
| JList (l : list json)
| JDict (l : list (string * json)).
#[local] Set Elimination Schemes.

(** What the outbound HTTP layer is asked to do, and what comes back. *)
Inductive http_method : Type := GET | POST.

Record request : Type := mkRequest {
  req_method : http_method;
  req_url : string;
  req_headers : list (string * string);
  req_body : option string
}.

(** httpx raises one of these when no response is obtained. *)
Inductive httpx_error : Type :=
| ConnectTimeout | ReadTimeout | WriteTimeout | PoolTimeout
| ConnectError | ReadError.

Inductive reply : Type :=
| Response (status_code : Z) (text : string)
| NoResponse (e : httpx_error).

Inductive exn : Type :=
| HTTPException (status_code : Z) (detail : string)
| HttpxError (e : httpx_error)
| JSONDecodeError
| TypeError
| BadReference.

Inductive result (A : Type) : Type :=
| Ok (a : A)
| Raise (e : exn).
Arguments Ok {A} a.
Arguments Raise {A} e.

(** Objects live in a heap; a dict is passed around by reference. *)
Abbreviation loc := nat (only parsing).

Record world : Type := mkWorld {
  heap : gmap nat dict;
  clock_reads : nat;
  sent : list request
}.

Definition M (A : Type) : Type := world -> result A * world.

Definition ret {A} (a : A) : M A := fun w => (Ok a, w).
Definition raise {A} (e : exn) : M A := fun w => (Raise e, w).
Definition bind {A B} (m : M A) (k : A -> M B) : M B :=
  fun w => match m w with
           | (Ok a, w') => k a w'
           | (Raise e, w') => (Raise e, w')
           end.

Notation "'let!' x ':=' m 'in' k" := (bind m (fun x => k))
  (at level 10, x name, m at level 100, k at level 200).
Notation "m ';;;' k" := (bind m (fun _ => k))
  (at level 100, k at level 200, right associativity).

(** A dict display [{...}] creates a fresh object. *)
Definition new_dict (d : dict) : M loc :=
  fun w => let l := fresh (dom (heap w)) in
           (Ok l, {| heap := <[l := d]> (heap w);
                     clock_reads := clock_reads w; sent := sent w |}).

Definition deref (l : loc) : M dict :=
  fun w => match heap w !! l with
           | Some d => (Ok d, w)
           | None => (Raise BadReference, w)
           end.

(** params.update(other), in place. *)
Definition update (l : loc) (other : dict) : M unit :=
  fun w => match heap w !! l with
           | Some d => (Ok tt, {| heap := <[l := dict_update d other]> (heap w);
                                  clock_reads := clock_reads w; sent := sent w |})
           | None => (Raise BadReference, w)
           end.

Definition nonempty (s : string) : bool :=
  match s with EmptyString => false | _ => true end.

Definition dict_bool (d : dict) : bool :=
  match d with [] => false | _ => true end.

Definition repr_list (repr : string -> string) (l : list string) : string :=
  "[" +:+ join ", " (map repr l) +:+ "]".

(** ** Module start-up: the allowed set

    [ALLOWED_SYMBOLS = set(os.getenv("ALLOWED_SYMBOLS", "BTCUSDT,ETHUSDT").split(","))] *)

(** s.split(sep) for a one-character separator: never empty, empty pieces
    are kept. *)
Fixpoint split_on (sep : ascii) (s : string) : list string :=
  match s with
  | EmptyString => [EmptyString]
  | String c rest =>
      if Ascii.eqb c sep then EmptyString :: split_on sep rest
      else match split_on sep rest with
           | [] => [String c EmptyString]
           | piece :: pieces => String c piece :: pieces
           end
  end.

(** os.getenv(name, default): the default is used only when the variable is
    unset. *)
Definition getenv (v : option string) (default : string) : string :=
  match v with Some x => x | None => default end.

Definition ALLOWED_SYMBOLS_of_env (v : option string) : gset string :=
  list_to_set (split_on "," (getenv v "BTCUSDT,ETHUSDT")).

Definition has_char (c : ascii) (s : string) : bool :=
  existsb (Ascii.eqb c) (list_ascii_of_string s).

(** ** Reading form-encoded text back

    urllib.parse.unquote_plus and parse_qsl(s, keep_blank_values=True), the
    decoding that undoes urlencode on the receiving side. *)

Definition hex_val (c : ascii) : option Z :=
  let n := Z.of_nat (nat_of_ascii c) in
  if (48 <=? n) && (n <=? 57) then Some (n - 48)
  else if (65 <=? n) && (n <=? 70) then Some (n - 55)
  else if (97 <=? n) && (n <=? 102) then Some (n - 87)
  else None.

Fixpoint unquote_plus (s : string) : string :=
  match s with
  | EmptyString => EmptyString
  | String c rest =>
      if Ascii.eqb c "+" then String " " (unquote_plus rest)
      else if Ascii.eqb c "%" then
        match rest with
        | String h (String l rest') =>
            match hex_val h, hex_val l with
            | Some a, Some b =>
                String (ascii_of_nat (Z.to_nat (16 * a + b))) (unquote_plus rest')
            | _, _ => String c (unquote_plus rest)
            end
        | _ => String c (unquote_plus rest)
        end
      else String c (unquote_plus rest)
  end.

(** s.partition(sep) without the separator: the text before and after the
    first [sep]. *)
Fixpoint partition_at (sep : ascii) (s : string) : string * string :=
  match s with
  | EmptyString => (EmptyString, EmptyString)
  | String c rest =>
      if Ascii.eqb c sep then (EmptyString, rest)
      else (String c (fst (partition_at sep rest)), snd (partition_at sep rest))
  end.

Definition partition_eq (s : string) : string * string := partition_at "=" s.

Definition parse_qsl (s : string) : list (string * string) :=
  map (fun f => (unquote_plus (fst (partition_eq f)), unquote_plus (snd (partition_eq f))))
      (List.filter nonempty (split_on "&" s)).

(** The text of a parameter mapping, as urlencode sees it. *)
Definition dict_text (d : dict) : list (string * string) :=
  map (fun kv => (fst kv, py_str (snd kv))) d.

(** The characters quote_plus can produce. *)
Definition form_safe (c : ascii) : bool :=
  is_unreserved c || Ascii.eqb c "+" || Ascii.eqb c "%".

Definition all_form_safe (s : string) : bool :=
  forallb form_safe (list_ascii_of_string s).

(** ** Reading a fixed-point numeral back *)

Definition digit_val (c : ascii) : option Z :=
  let n := Z.of_nat (nat_of_ascii c) in
  if (48 <=? n) && (n <=? 57) then Some (n - 48) else None.

(** The number written by a string of digits, continuing from [acc]. *)
Fixpoint digits_value (s : string) (acc : Z) : option Z :=
  match s with
  | EmptyString => Some acc
  | String c rest =>
      match digit_val c with
      | Some v => digits_value rest (10 * acc + v)
      | None => None
      end
  end.

(** The numeral with its point removed, read as an integer: the value in
    units of the last decimal place. *)
Definition unscaled_value (s : string) : option Z :=
  digits_value (fst (partition_at "." s) +:+ snd (partition_at "." s)) 0.

(** ** Values and exceptions of the read-only handlers *)

Inductive py_exn : Type :=
| Exn (e : exn)
| KeyError (k : string)
| AttributeError
| FloatError  (* the TypeError, ValueError or OverflowError raised by float() *).

Inductive outcome (A : Type) : Type :=
| Return (a : A)
| Throw (e : py_exn).
Arguments Return {A} a.
Arguments Throw {A} e.

Definition handler (A : Type) : Type := world -> outcome A * world.

Definition hret {A} (a : A) : handler A := fun w => (Return a, w).
Definition hbind {A B} (m : handler A) (k : A -> handler B) : handler B :=
  fun w => match m w with
           | (Return a, w') => k a w'
           | (Throw e, w') => (Throw e, w')
           end.
(** A call into the client: its exceptions propagate. *)
Definition lift {A} (m : M A) : handler A :=
  fun w => match m w with
           | (Ok a, w') => (Return a, w')
           | (Raise e, w') => (Throw (Exn e), w')
           end.
(** An expression that touches no object. *)
Definition pure {A} (r : outcome A) : handler A := fun w => (r, w).

Notation "'let?' x ':=' m 'in' k" := (hbind m (fun x => k))
  (at level 10, x name, m at level 100, k at level 200).

Fixpoint assoc (k : string) (kv : list (string * json)) : option json :=
  match kv with
  | [] => None
  | (k', v) :: rest => if String.eqb k k' then Some v else assoc k rest
  end.

(** v[k] for a str key: only a dict can be subscripted that way. *)
Definition subscript (v : json) (k : string) : outcome json :=
  match v with
  | JDict kv =>
      match assoc k kv with
      | Some x => Return x
      | None => Throw (KeyError k)
      end
  | _ => Throw (Exn TypeError)
  end.

(** v.get(k, default): only a dict has the method. *)
Definition get_default (v : json) (k : string) (default : json) : outcome json :=
  match v with
  | JDict kv =>
      match assoc k kv with
      | Some x => Return x
      | None => Return default
      end
  | _ => Throw AttributeError
  end.

(** for b in v: a list yields its elements, a dict its keys, a str its
    characters (bytewise here, exact for ASCII text; every element is a
    str in any case); other values are not iterable. *)
Definition iter_json (v : json) : outcome (list json) :=
  match v with
  | JList l => Return l
  | JDict kv => Return (map (fun p => JStr (fst p)) kv)
  | JStr s => Return (map (fun c => JStr (String c EmptyString)) (list_ascii_of_string s))
  | _ => Throw (Exn TypeError)
  end.

Definition hashable (k : json) : bool :=
  match k with
  | JList _ | JDict _ => false
  | _ => true
  end.

(** class returned by the balance handler: the dict under "balances", keyed
    by whatever hashable value each entry gives as its asset. *)
Record balance_response : Type := mkBalances {
  balances : list (json * float)
}.

(** ** A concrete deployment, used to run the handlers on examples

    The default configuration of server.py (two symbols, a cap of 100), a
    clock, and three behaviours of the remote end. *)

Module Sample.

Definition KEY : string := "test-key".
Definition SECRET : string := "test-secret".
Definition BASE : string := "https://testnet.binance.vision".
Definition ALLOWED : gset string := {[ "BTCUSDT"%string; "ETHUSDT"%string ]}.
Definition MAX : float := float_of_Z 100.

(** str(100.0) is "100.0": one decimal is what str shows for the caps used
    here. *)
Definition float_str (x : float) : string := format_f 1 x.
(** repr of a str without quotes or escapes. *)
Definition str_repr (s : string) : string := "'" +:+ s +:+ "'".
(** A stand-in parser that keeps the body text. *)
Definition json_loads (tx : string) : option json := Some (JStr tx).

Definition time_ms (n : nat) : Z := 1700000000000 + Z.of_nat n.

Definition exchange_ok (rq : request) : reply := Response 200 "{}".
Definition exchange_down (rq : request) : reply := NoResponse ConnectTimeout.
Definition exchange_rejects (rq : request) : reply :=
  Response 400 "code=-2010 msg=insufficient balance".

Definition w0 : world := {| heap := ∅; clock_reads := 0; sent := [] |}.
(** A caller holding a one-entry mapping, resp. an empty mapping, at
    reference 0. *)
Definition w1 : world :=
  {| heap := {[ 0%nat := [("symbol"%string, VStr "BTCUSDT")] ]};
     clock_reads := 0; sent := [] |}.

Definition order (sym : string) (sd : Side) (ty : OrderType)
    (qa qty pr : option float) (c : bool) : OrderIn :=
  {| symbol := sym; side := sd; type := ty; quote_amount := qa;
     quantity := qty; price := pr; confirmed := c |}.

End Sample.

(** ** Sample upstream documents for the read-only handlers *)

Module SampleJson.

(** float() on a JSON number; a stand-in that rejects every other value. *)
Definition py_float (v : json) : option float :=
  match v with
  | JNum x => Some x
  | _ => None
  end.

Definition py_scalar_eq (a b : json) : bool := false.

Definition half : float := S754_finite false 1 (-1).

(** Three entries: a positive one, a zero one, and a negative one that
    carries no asset. *)
Definition account : json :=
  JDict [("balances"%string,
          JList [JDict [("asset"%string, JStr "BTC"); ("free"%string, JNum half)];
                 JDict [("asset"%string, JStr "ETH"); ("free"%string, JNum (S754_zero false))];
                 JDict [("free"%string, JNum (float_of_Z (-1)))]])].

Definition idle_account : json :=
  JDict [("balances"%string,
          JList [JDict [("asset"%string, JStr "ETH"); ("free"%string, JNum (S754_zero false))];
                 JDict [("free"%string, JNum (float_of_Z (-1)))]])].

Definition ticker : json :=
  JDict [("symbol"%string, JStr "BTCUSDT"); ("price"%string, JNum (float_of_Z 50000))].

Definition loads_account (tx : string) : option json := Some account.
Definition loads_idle_account (tx : string) : option json := Some idle_account.
Definition loads_ticker (tx : string) : option json := Some ticker.

Definition exchange_empty (rq : request) : reply := Response 200 "".

End SampleJson.

Section Server.

(** Module-level configuration, read from the environment at start-up. *)
Variable BINANCE_KEY : string.
Variable BINANCE_SECRET : string.
Variable BASE_URL : string.
Variable ALLOWED_SYMBOLS : gset string.
Variable MAX_QUOTE_TRADE_USDT : float.

(** Library functions left abstract: str.upper, str(float), repr(str) and
    json parsing of a response body (None when it raises). *)
Variable str_upper : string -> string.
Variable float_str : float -> string.
Variable str_repr : string -> string.
Variable json_loads : string -> option json.

(** The environment: successive readings of int(time.time() * 1000) and the
    behaviour of the remote end. *)
Variable time_ms : nat -> Z.
Variable httpx_send : request -> reply.

Definition now_ms : M Z :=
  fun w => (Ok (time_ms (clock_reads w)),
            {| heap := heap w; clock_reads := S (clock_reads w); sent := sent w |}).

(** async with httpx.AsyncClient(timeout=15) as client: r = await client.<method>(...) *)
Definition client_request (rq : request) : M (Z * string) :=
  fun w => let w' := {| heap := heap w; clock_reads := clock_reads w;
                        sent := sent w ++ [rq] |} in
           match httpx_send rq with
           | Response st tx => (Ok (st, tx), w')
           | NoResponse e => (Raise (HttpxError e), w')
           end.

(** r.json() *)
Definition response_json (tx : string) : M json :=
  match json_loads tx with
  | Some j => ret j
  | None => raise JSONDecodeError
  end.

Definition _sign (params : dict) : string :=
  let query_string := urlencode params in
  let signature := hexdigest (Hmac.digest (encode BINANCE_SECRET) (encode query_string)) in
  query_string +:+ "&signature=" +:+ signature.

Definition _get (path : string) (params : option loc) (signed : bool) : M json :=
  let headers := [("X-MBX-APIKEY"%string, BINANCE_KEY)] in
  let! params :=
    match params with
    | None => new_dict []
    | Some l => let! d := deref l in if dict_bool d then ret l else new_dict []
    end in
  let! qs :=
    if signed then
      let! ts := now_ms in
      update params [("timestamp"%string, VInt ts)] ;;;
      let! d := deref params in ret (_sign d)
    else
      let! d := deref params in ret (urlencode d) in
  let url := if nonempty qs then BASE_URL +:+ path +:+ "?" +:+ qs else BASE_URL +:+ path in
  let! r := client_request {| req_method := GET; req_url := url;
                              req_headers := headers; req_body := None |} in
  if 400 <=? fst r then raise (HTTPException (fst r) (snd r))
  else response_json (snd r).

Definition _post (path : string) (params : loc) (signed : bool) : M json :=
  let headers := [("X-MBX-APIKEY"%string, BINANCE_KEY);
                  ("Content-Type"%string, "application/x-www-form-urlencoded"%string)] in
  let! body :=
    if signed then
      let! ts := now_ms in
      update params [("timestamp"%string, VInt ts)] ;;;
      let! d := deref params in ret (_sign d)
    else
      let! d := deref params in ret (urlencode d) in
  let url := BASE_URL +:+ path in
  let! r := client_request {| req_method := POST; req_url := url;
                              req_headers := headers; req_body := Some body |} in
  if 400 <=? fst r then raise (HTTPException (fst r) (snd r))
  else if nonempty (snd r) then response_json (snd r)
  else ret (JDict [("ok"%string, JBool true)]).

Definition msg_symbol : string :=
  "Pair non autorisée. Autorisées: " +:+ repr_list str_repr (sorted (elements ALLOWED_SYMBOLS)).
Definition msg_confirm : string := "Confirmation manquante.".
Definition msg_buy_market : string := "Pour BUY MARKET, fournir quote_amount.".
Definition msg_limit_exceeded : string :=
  "Montant > limite " +:+ float_str MAX_QUOTE_TRADE_USDT +:+ " USDT.".
Definition msg_sell_market : string := "Pour SELL MARKET, fournir quantity.".
Definition msg_limit : string := "Pour LIMIT, fournir quantity et price.".

(** f"{x:.Nf}" applied to an Optional[float]: None has no such format. *)
Definition format_opt (d : nat) (x : option float) : M string :=
  match x with
  | Some v => ret (format_f d v)
  | None => raise TypeError
  end.

(** o.quote_amount > MAX_QUOTE_TRADE_USDT: None is not ordered with a float. *)
Definition exceeds_max (x : option float) : M bool :=
  match x with
  | Some v => ret (float_gt v MAX_QUOTE_TRADE_USDT)
  | None => raise TypeError
  end.

Definition create_order (o : OrderIn) : M json :=
  let symbol := str_upper (symbol o) in
  if negb (bool_decide (symbol ∈ ALLOWED_SYMBOLS)) then
    raise (HTTPException 400 msg_symbol)
  else if negb (confirmed o) then
    raise (HTTPException 400 msg_confirm)
  else
    let! params := new_dict [("symbol"%string, VStr symbol);
                             ("side"%string, VStr (side_str (side o)));
                             ("type"%string, VStr (type_str (type o)))] in
    match type o with
    | MARKET =>
        match side o with
        | BUY =>
            if negb (opt_bool (quote_amount o)) then
              raise (HTTPException 400 msg_buy_market)
            else
              let! over := exceeds_max (quote_amount o) in
              if over then raise (HTTPException 400 msg_limit_exceeded)
              else
                let! q := format_opt 2 (quote_amount o) in
                update params [("quoteOrderQty"%string, VStr q)]
        | SELL =>
            if negb (opt_bool (quantity o)) then
              raise (HTTPException 400 msg_sell_market)
            else
              let! q := format_opt 6 (quantity o) in
              update params [("quantity"%string, VStr q)]
        end
    | LIMIT =>
        if negb (opt_bool (quantity o) && opt_bool (price o)) then
          raise (HTTPException 400 msg_limit)
        else
          let! q := format_opt 6 (quantity o) in
          let! p := format_opt 2 (price o) in
          update params [("quantity"%string, VStr q); ("price"%string, VStr p);
                         ("timeInForce"%string, VStr "GTC")]
    end ;;;
    let! result := _post "/api/v3/order" params true in
    ret (JDict [("exchange_response"%string, result)]).

(** *** create_order as a function of its input

    The definitions below restate what the handler computes without the
    state plumbing; [create_order_run] relates them to the code. *)

Definition base_params (o : OrderIn) : dict :=
  [("symbol"%string, VStr (str_upper (symbol o)));
   ("side"%string, VStr (side_str (side o)));
   ("type"%string, VStr (type_str (type o)))].

(** The per-(type, side) checks: the rejection message, or the entries
    added to the parameters. *)
Definition checked_fields (o : OrderIn) : string + dict :=
  match type o, side o with
  | MARKET, BUY =>
      match quote_amount o with
      | Some q =>
          if float_bool q then
            if float_gt q MAX_QUOTE_TRADE_USDT then inl msg_limit_exceeded
            else inr [("quoteOrderQty"%string, VStr (format_f 2 q))]
          else inl msg_buy_market
      | None => inl msg_buy_market
      end
  | MARKET, SELL =>
      match quantity o with
      | Some q =>
          if float_bool q then inr [("quantity"%string, VStr (format_f 6 q))]
          else inl msg_sell_market
      | None => inl msg_sell_market
      end
  | LIMIT, _ =>
      match quantity o, price o with
      | Some q, Some p =>
          if float_bool q && float_bool p then
            inr [("quantity"%string, VStr (format_f 6 q));
                 ("price"%string, VStr (format_f 2 p));
                 ("timeInForce"%string, VStr "GTC")]
          else inl msg_limit
      | _, _ => inl msg_limit
      end
  end.

Definition get_headers : list (string * string) :=
  [("X-MBX-APIKEY"%string, BINANCE_KEY)].
Definition post_headers : list (string * string) :=
  [("X-MBX-APIKEY"%string, BINANCE_KEY);
   ("Content-Type"%string, "application/x-www-form-urlencoded"%string)].

Definition get_request (path qs : string) : request :=
  {| req_method := GET;
     req_url := if nonempty qs then BASE_URL +:+ path +:+ "?" +:+ qs else BASE_URL +:+ path;
     req_headers := get_headers; req_body := None |}.

Definition post_request (path body : string) : request :=
  {| req_method := POST; req_url := BASE_URL +:+ path;
     req_headers := post_headers; req_body := Some body |}.

Definition parse (tx : string) : result json :=
  match json_loads tx with
  | Some j => Ok j
  | None => Raise JSONDecodeError
  end.

(** What _get and _post return for a given reply of the transport. *)
Definition get_outcome (r : reply) : result json :=
  match r with
  | NoResponse e => Raise (HttpxError e)
  | Response st tx => if 400 <=? st then Raise (HTTPException st tx) else parse tx
  end.

Definition post_outcome (r : reply) : result json :=
  match r with
  | NoResponse e => Raise (HttpxError e)
  | Response st tx =>
      if 400 <=? st then Raise (HTTPException st tx)
      else if nonempty tx then parse tx
      else Ok (JDict [("ok"%string, JBool true)])
  end.

Definition wrap_response (r : result json) : result json :=
  match r with
  | Ok j => Ok (JDict [("exchange_response"%string, j)])
  | Raise e => Raise e
  end.

Definition stamp (w : world) (d : dict) : dict :=
  dict_set "timestamp" (VInt (time_ms (clock_reads w))) d.

Definition with_heap (w : world) (h : gmap nat dict) : world :=
  {| heap := h; clock_reads := clock_reads w; sent := sent w |}.

Definition after_call (w : world) (h : gmap nat dict) (signed : bool) (rq : request) : world :=
  {| heap := h;
     clock_reads := if signed then S (clock_reads w) else clock_reads w;
     sent := sent w ++ [rq] |}.

(** *** The read-only handlers: ping, get_price, get_balance *)

(** float(v), None when it raises; and == between two hashable values that
    are not both str (numbers, booleans, None). *)
Variable py_float : json -> option float.
Variable py_scalar_eq : json -> json -> bool.

Definition to_float (v : json) : outcome float :=
  match py_float v with
  | Some x => Return x
  | None => Throw FloatError
  end.

(** Key equality of a dict: two strs are equal when their text is, a str
    never equals a value of another type. *)
Definition key_eqb (a b : json) : bool :=
  match a, b with
  | JStr x, JStr y => String.eqb x y
  | JStr _, _ | _, JStr _ => false
  | _, _ => py_scalar_eq a b
  end.

(** d[k] = v on a dict under construction: an equal key keeps its place
    (and the key object first inserted), a new one goes last. *)
Fixpoint balances_set (k : json) (v : float) (d : list (json * float)) :
    list (json * float) :=
  match d with
  | [] => [(k, v)]
  | (k', v') :: rest =>
      if key_eqb k' k then (k', v) :: rest else (k', v') :: balances_set k v rest
  end.

Definition ping : handler json := hret (JDict [("status"%string, JStr "ok")]).

Definition get_price (symbol : string) : handler json :=
  let symbol := str_upper symbol in
  let? params := lift (new_dict [("symbol"%string, VStr symbol)]) in
  let? data := lift (_get "/api/v3/ticker/price" (Some params) false) in
  let? p := pure (subscript data "price") in
  let? x := pure (to_float p) in
  hret (JDict [("symbol"%string, JStr symbol); ("price"%string, JNum x)]).

(** {b["asset"]: float(b["free"]) for b in items if float(b["free"]) > 0} *)
Fixpoint collect (items : list json) (acc : list (json * float)) :
    outcome (list (json * float)) :=
  match items with
  | [] => Return acc
  | b :: rest =>
      match subscript b "free" with
      | Throw e => Throw e
      | Return f =>
          match to_float f with
          | Throw e => Throw e
          | Return x =>
              if float_gt x (S754_zero false) then
                match subscript b "asset" with
                | Throw e => Throw e
                | Return k =>
                    match subscript b "free" with
                    | Throw e => Throw e
                    | Return f' =>
                        match to_float f' with
                        | Throw e => Throw e
                        | Return y =>
                            if hashable k then collect rest (balances_set k y acc)
                            else Throw (Exn TypeError)
                        end
                    end
                end
              else collect rest acc
          end
      end
  end.

Definition get_balance : handler balance_response :=
  let? data := lift (_get "/api/v3/account" None true) in
  let? bal := pure (get_default data "balances" (JList [])) in
  let? items := pure (iter_json bal) in
  let? balances := pure (collect items []) in
  hret (mkBalances balances).

(** An entry of the upstream list that accounts for a reported balance. *)
Definition backs (items : list json) (k : json) (v : float) : Prop :=
  exists b f kb,
    b ∈ items /\ subscript b "free" = Return f /\ py_float f = Some v /\
    float_gt v (S754_zero false) = true /\
    subscript b "asset" = Return kb /\ hashable kb = true /\
    (k = kb \/ key_eqb k kb = true).

(** What every request of this program looks like: the API key header is
    present; a GET has no body; a POST has one and declares it
    form-encoded. *)
Definition well_formed (rq : request) : Prop :=
  ("X-MBX-APIKEY"%string, BINANCE_KEY) ∈ req_headers rq /\
  match req_method rq with
  | GET => req_body rq = None
  | POST => is_Some (req_body rq) /\
            ("Content-Type"%string, "application/x-www-form-urlencoded"%string)
              ∈ req_headers rq
  end.

(** Two orders that agree on every field create_order reads for their
    (type, side). *)
Definition same_read_fields (o o' : OrderIn) : Prop :=
  symbol o = symbol o' /\ side o = side o' /\ type o = type o' /\
  confirmed o = confirmed o' /\
  match type o, side o with
  | MARKET, BUY => quote_amount o = quote_amount o'
  | MARKET, SELL => quantity o = quantity o'
  | LIMIT, _ => quantity o = quantity o' /\ price o = price o'
  end.

(** ** Properties *)

Example sha256_abc :
  hexdigest (Sha256.digest (encode "abc")) =
  "ba7816bf8f01cfea414140de5dae2223b00361a396177a9cb410ff61f20015ad"%string.
Proof. vm_compute. reflexivity. Qed.

Example sha256_two_blocks :
  hexdigest (Sha256.digest
    (encode "abcdbcdecdefdefgefghfghighijhijkijkljklmklmnlmnomnopnopq")) =
  "248d6a61d20638b8e5c026930c3e6039a33ce45964ff2167f6ecedd419db06c1"%string.
Proof. vm_compute. reflexivity. Qed.

Example hmac_sha256_fox :
  hexdigest (Hmac.digest (encode "key")
    (encode "The quick brown fox jumps over the lazy dog")) =
  "f7bc83f430538424b13298e6aa6fb143ef4d59a14946175997479dbc2d1a3cd8"%string.
Proof. vm_compute. reflexivity. Qed.

Example format_f_samples :
  format_f 2 (float_of_Z 50) = "50.00"%string /\
  format_f 2 (S754_finite false 1 (-3)) = "0.12"%string /\
  format_f 2 (S754_finite false 3 (-3)) = "0.38"%string /\
  format_f 6 (S754_finite true 5 (-1)) = "-2.500000"%string /\
  format_f 2 (S754_finite false 3602879701896397 (-55)) = "0.10"%string /\
  format_f 2 (S754_infinity true) = "-inf"%string.
Proof. vm_compute. repeat split. Qed.

Example urlencode_sample :
  urlencode [("symbol"%string, VStr "BTC USDT/x"); ("timestamp"%string, VInt 1700000000000)]
  = "symbol=BTC+USDT%2Fx&timestamp=1700000000000"%string.
Proof. vm_compute. reflexivity. Qed.

(** *** Strings, digests and hexadecimal text *)

Lemma length_append (a b : string) :
  String.length (a +:+ b) = (String.length a + String.length b)%nat.
Proof. induction a as [|c a IH]; simpl; [reflexivity|congruence]. Qed.

Lemma chars_append (a b : string) :
  list_ascii_of_string (a +:+ b) = list_ascii_of_string a ++ list_ascii_of_string b.
Proof. induction a as [|c a IH]; simpl; [reflexivity|congruence]. Qed.

Lemma take_append (a b : string) : string_take (String.length a) (a +:+ b) = a.
Proof. induction a as [|c a IH]; simpl; [by destruct b|congruence]. Qed.

Lemma drop_append (a b : string) : string_drop (String.length a) (a +:+ b) = b.
Proof. induction a as [|c a IH]; simpl; [by destruct b|done]. Qed.

Lemma nibble_lower_hex (n : Z) : is_lower_hex (nibble hex_lower n) = true.
Proof.
  unfold nibble. change 15 with (Z.ones 4). rewrite Z.land_ones by lia.
  assert (Hk : (Z.to_nat (n mod 2 ^ 4) < 16)%nat).
  { pose proof (Z.mod_pos_bound n (2 ^ 4) ltac:(lia)). lia. }
  revert Hk. generalize (Z.to_nat (n mod 2 ^ 4)). intros k Hk.
  do 16 (destruct k as [|k]; [reflexivity|]). lia.
Qed.

Lemma hexdigest_length (bs : list Z) :
  String.length (hexdigest bs) = (2 * length bs)%nat.
Proof.
  induction bs as [|b bs IH]; [reflexivity|].
  cbn [hexdigest]. rewrite length_append, IH. unfold hex_byte. simpl. lia.
Qed.

Lemma hexdigest_lower (bs : list Z) : all_lower_hex (hexdigest bs) = true.
Proof.
  unfold all_lower_hex. induction bs as [|b bs IH]; [done|].
  cbn [hexdigest]. rewrite chars_append, forallb_app, IH.
  unfold hex_byte. cbn [list_ascii_of_string forallb].
  by rewrite !nibble_lower_hex.
Qed.

Lemma sha256_digest_length (msg : list Z) : length (Sha256.digest msg) = 32%nat.
Proof.
  unfold Sha256.digest.
  generalize (Sha256.blocks (Nat.div (length (Sha256.pad msg)) 64) (Sha256.pad msg) Sha256.H0).
  intros h.
  assert (Hlen : length (firstn 8 (h ++ repeat 0 8)) = 8%nat).
  { rewrite length_take, length_app, repeat_length. lia. }
  revert Hlen. generalize (firstn 8 (h ++ repeat 0 8)). intros l Hl.
  do 9 (destruct l as [|? l]; try discriminate Hl). reflexivity.
Qed.

Lemma hmac_digest_length (key msg : list Z) : length (Hmac.digest key msg) = 32%nat.
Proof. apply sha256_digest_length. Qed.

Lemma signed_parts_append (qs sig : string) :
  String.length sig = 64%nat ->
  signed_parts (qs +:+ "&signature=" +:+ sig) = Some (qs, sig).
Proof.
  intros Hsig. unfold signed_parts.
  rewrite length_append, length_append, Hsig.
  change (String.length "&signature=") with 11%nat.
  replace (String.length qs + (11 + 64) - 75)%nat with (String.length qs) by lia.
  destruct (Nat.ltb_spec (String.length qs + (11 + 64)) 75) as [Hlt|_]; [lia|].
  rewrite drop_append, take_append. reflexivity.
Qed.

(** *** The [.Nf] format *)

Lemma all_digits_append (a b : string) :
  all_digits (a +:+ b) = all_digits a && all_digits b.
Proof. unfold all_digits. by rewrite chars_append, forallb_app. Qed.

Lemma uint_digits (u : Decimal.uint) : all_digits (NilEmpty.string_of_uint u) = true.
Proof. induction u; simpl; try reflexivity; exact IHu. Qed.

Lemma str_int_digits (n : Z) :
  0 <= n -> all_digits (str_int n) = true /\ str_int n <> EmptyString.
Proof.
  intros Hn. unfold str_int, Z.to_int.
  destruct n as [|p|p]; [split; [reflexivity|discriminate]| |lia].
  simpl. unfold NilZero.string_of_uint.
  destruct (Pos.to_uint p) eqn:E; try (split; [apply (uint_digits (_ u))|discriminate]).
  split; [reflexivity|discriminate].
Qed.

Lemma digit_char_digit (n : Z) : all_digits (String (digit_char n) EmptyString) = true.
Proof.
  unfold all_digits, digit_char. cbn [list_ascii_of_string forallb].
  pose proof (Z.mod_pos_bound n 10 ltac:(lia)) as Hb.
  rewrite nat_ascii_embedding by lia.
  rewrite andb_true_r. apply andb_true_iff. split; apply Nat.leb_le; lia.
Qed.

Lemma frac_digits_spec (d : nat) (n : Z) :
  all_digits (frac_digits d n) = true /\ String.length (frac_digits d n) = d.
Proof.
  revert n. induction d as [|d IH]; intros n; [done|].
  cbn [frac_digits]. destruct (IH (n / 10)) as [Hd Hl].
  rewrite all_digits_append, length_append, Hd, Hl, digit_char_digit.
  split; [done|]. simpl. lia.
Qed.

Lemma round_half_even_nonneg (num den : Z) :
  0 <= num -> 0 < den -> 0 <= round_half_even num den.
Proof.
  intros Hn Hd. unfold round_half_even.
  assert (0 <= num / den) by (apply Z.div_pos; lia).
  destruct (_ || _); lia.
Qed.

Lemma scaled_round_nonneg (d : nat) (m : positive) (e : Z) : 0 <= scaled_round d m e.
Proof.
  unfold scaled_round. destruct (Z.leb_spec 0 e).
  - assert (0 < 2 ^ e) by (apply Z.pow_pos_nonneg; lia).
    assert (0 < 10 ^ Z.of_nat d) by (apply Z.pow_pos_nonneg; lia). nia.
  - apply round_half_even_nonneg.
    + assert (0 < 10 ^ Z.of_nat d) by (apply Z.pow_pos_nonneg; lia). nia.
    + apply Z.pow_pos_nonneg; lia.
Qed.

Lemma fixed_digits_spec (d : nat) (n : Z) (sg : bool) :
  (0 < d)%nat -> 0 <= n -> fixed_decimal d (sign_str sg +:+ fixed_digits d n).
Proof.
  intros Hd Hn. unfold fixed_digits. destruct d as [|d]; [lia|].
  assert (Hq : 0 <= n / 10 ^ Z.of_nat (S d)).
  { apply Z.div_pos; [lia|]. apply Z.pow_pos_nonneg; lia. }
  destruct (str_int_digits _ Hq) as [Hip Hne].
  destruct (frac_digits_spec (S d) n) as [Hfp Hlen].
  exists sg, (str_int (n / 10 ^ Z.of_nat (S d))), (frac_digits (S d) n).
  done.
Qed.

Lemma format_f_fixed (d : nat) (x : float) :
  (0 < d)%nat -> is_finite x = true -> fixed_decimal d (format_f d x).
Proof.
  intros Hd Hx. destruct x as [s|s| |s m e]; try discriminate Hx.
  - apply fixed_digits_spec; [done|lia].
  - apply fixed_digits_spec; [done|apply scaled_round_nonneg].
Qed.

Lemma fixed_decimal_has_point (d : nat) (s : string) :
  fixed_decimal d s -> existsb (Ascii.eqb ".") (list_ascii_of_string s) = true.
Proof.
  intros (sg & ip & fp & -> & _).
  rewrite !chars_append, !existsb_app. cbn [list_ascii_of_string existsb].
  replace (Ascii.eqb "." ".") with true by reflexivity.
  by rewrite !orb_true_r.
Qed.

(** *** Comparing floats *)

(** The comparison reads the numbers, not the way they are written: any
    common exponent below both gives the same answer. *)
Lemma scaled_gt_spec (n1 e1 n2 e2 k : Z) :
  k <= e1 -> k <= e2 ->
  (scaled_gt n1 e1 n2 e2 = true <-> n2 * 2 ^ (e2 - k) < n1 * 2 ^ (e1 - k)).
Proof.
  intros H1 H2. unfold scaled_gt. set (e := Z.min e1 e2).
  assert (He : k <= e) by (unfold e; lia).
  assert (Hp : 0 < 2 ^ (e - k)) by (apply Z.pow_pos_nonneg; lia).
  replace (e1 - k) with ((e1 - e) + (e - k)) by lia.
  replace (e2 - k) with ((e2 - e) + (e - k)) by lia.
  rewrite !Z.pow_add_r by (unfold e; lia).
  rewrite Z.ltb_lt. nia.
Qed.

Lemma scaled_eq_spec (n1 e1 n2 e2 k : Z) :
  k <= e1 -> k <= e2 ->
  (scaled_eq n1 e1 n2 e2 = true <-> n1 * 2 ^ (e1 - k) = n2 * 2 ^ (e2 - k)).
Proof.
  intros H1 H2. unfold scaled_eq. set (e := Z.min e1 e2).
  assert (He : k <= e) by (unfold e; lia).
  assert (Hp : 0 < 2 ^ (e - k)) by (apply Z.pow_pos_nonneg; lia).
  replace (e1 - k) with ((e1 - e) + (e - k)) by lia.
  replace (e2 - k) with ((e2 - e) + (e - k)) by lia.
  rewrite !Z.pow_add_r by (unfold e; lia).
  rewrite Z.eqb_eq. nia.
Qed.

(** Writing a finite float with a doubled mantissa and the exponent one
    lower changes no comparison. *)
Lemma float_gt_rescale (s : bool) (m : positive) (e : Z) (b : float) :
  float_gt (S754_finite s (m~0) (e - 1)) b = float_gt (S754_finite s m e) b /\
  float_gt b (S754_finite s (m~0) (e - 1)) = float_gt b (S754_finite s m e).
Proof.
  unfold float_gt. cbn [float_value].
  destruct (float_value b) as [|sb|n2 e2]; [done|done|].
  set (n := if s then Z.neg m else Z.pos m).
  replace (if s then Z.neg m~0 else Z.pos m~0) with (2 * n) by (unfold n; by destruct s).
  set (k := Z.min (e - 1) e2).
  assert (Hpow : 2 * 2 ^ (e - 1 - k) = 2 ^ (e - k)).
  { replace (e - k) with (Z.succ (e - 1 - k)) by lia.
    rewrite Z.pow_succ_r by (unfold k; lia). reflexivity. }
  split; apply eq_true_iff_eq.
  - rewrite (scaled_gt_spec (2 * n) (e - 1) n2 e2 k), (scaled_gt_spec n e n2 e2 k)
      by (unfold k; lia).
    rewrite <- Hpow. split; intros; lia.
  - rewrite (scaled_gt_spec n2 e2 (2 * n) (e - 1) k), (scaled_gt_spec n2 e2 n e k)
      by (unfold k; lia).
    rewrite <- Hpow. split; intros; lia.
Qed.

Lemma float_eq_not_gt (a b : float) : float_eqb a b = true -> float_gt a b = false.
Proof.
  unfold float_eqb, float_gt.
  destruct (float_value a) as [|sa|n1 e1], (float_value b) as [|sb|n2 e2]; try done.
  - by destruct sa, sb.
  - unfold scaled_eq, scaled_gt. intros Heq%Z.eqb_eq. apply Z.ltb_ge. lia.
Qed.

(** 100.5 and 150.0 as binary64 stores them exceed a cap of 100 however the
    cap is written; 25 * 2^2 is 100 and exceeds nothing. *)
Example float_gt_samples :
  float_gt (S754_finite false 7072058789855232 (-46)) (float_of_Z 100) = true /\
  float_gt (S754_finite false 5277655813324800 (-45)) (float_of_Z 100) = true /\
  float_gt (S754_finite false 25 2) (float_of_Z 100) = false /\
  float_eqb (S754_finite false 25 2) (float_of_Z 100) = true /\
  float_gt (S754_finite false 7072058789855232 (-46))
           (S754_finite false 7036874417766400 (-46)) = true /\
  float_eqb (S754_finite false 7036874417766400 (-46)) (float_of_Z 100) = true /\
  float_gt (float_of_Z 100) (S754_finite false 7036874417766400 (-46)) = false.
Proof. vm_compute. repeat split. Qed.

Lemma post_run (path : string) (l : nat) (signed : bool) (w : world) (d : dict) :
  heap w !! l = Some d ->
  let d' := if signed then stamp w d else d in
  let body := if signed then _sign d' else urlencode d' in
  _post path l signed w =
  (post_outcome (httpx_send (post_request path body)),
   after_call w (if signed then <[l := d']> (heap w) else heap w) signed (post_request path body)).
Proof.
  intros Hl. unfold _post, bind, now_ms, update, deref, client_request, ret, raise.
  destruct signed; cbn [heap clock_reads sent].
  - rewrite Hl. cbn [heap clock_reads sent dict_update fold_left fst snd].
    rewrite lookup_insert_eq. unfold post_outcome, post_request, post_headers, parse, response_json, after_call, stamp, ret, raise.
    destruct (httpx_send _) as [st tx|e]; cbn [fst snd]; [|done].
    destruct (400 <=? st); [done|]. destruct (nonempty tx); [|done]. destruct (json_loads tx); done.
  - rewrite Hl. unfold post_outcome, post_request, post_headers, parse, response_json, after_call, ret, raise.
    destruct (httpx_send _) as [st tx|e]; cbn [fst snd]; [|done].
    destruct (400 <=? st); [done|]. destruct (nonempty tx); [|done]. destruct (json_loads tx); done.
Qed.


Lemma get_run_own (path : string) (l : nat) (signed : bool) (w : world) (d : dict) :
  heap w !! l = Some d -> d <> [] ->
  let d' := if signed then stamp w d else d in
  let qs := if signed then _sign d' else urlencode d' in
  _get path (Some l) signed w =
  (get_outcome (httpx_send (get_request path qs)),
   after_call w (if signed then <[l := d']> (heap w) else heap w) signed (get_request path qs)).
Proof.
  intros Hl Hd. unfold _get, bind, now_ms, update, deref, client_request, ret, raise.
  rewrite Hl. destruct d as [|kv d]; [done|]. cbn [dict_bool].
  destruct signed; cbn [heap clock_reads sent].
  - rewrite ?Hl. cbn [heap clock_reads sent dict_update fold_left fst snd].
    rewrite lookup_insert_eq.
    unfold get_outcome, get_request, get_headers, parse, response_json, after_call, stamp, ret, raise.
    destruct (httpx_send _) as [st tx|e]; cbn [fst snd]; [|done].
    destruct (400 <=? st); [done|]. destruct (json_loads tx); done.
  - rewrite ?Hl.
    unfold get_outcome, get_request, get_headers, parse, response_json, after_call, ret, raise.
    destruct (httpx_send _) as [st tx|e]; cbn [fst snd]; [|done].
    destruct (400 <=? st); [done|]. destruct (json_loads tx); done.
Qed.

Lemma get_run_fresh (path : string) (params : option nat) (signed : bool) (w : world) :
  match params with Some l => heap w !! l = Some [] | None => True end ->
  let l' := fresh (dom (heap w)) in
  let d' := if signed then stamp w [] else [] in
  let qs := if signed then _sign d' else urlencode d' in
  _get path params signed w =
  (get_outcome (httpx_send (get_request path qs)),
   after_call w (<[l' := d']> (heap w)) signed (get_request path qs)).
Proof.
  intros Hp.
  unfold _get. unfold bind at 1.
  assert (Hnew : match params with
            | None => new_dict []
            | Some l => let! d := deref l in if dict_bool d then ret l else new_dict []
            end w = new_dict [] w).
  { destruct params as [l|]; [|done]. cbn beta iota in Hp. unfold bind, deref. rewrite Hp. done. }
  rewrite Hnew. unfold new_dict at 1. unfold bind.
  unfold now_ms, update, deref, client_request, ret, raise.
  destruct signed; cbn [heap clock_reads sent].
  - rewrite lookup_insert_eq. cbn [heap clock_reads sent dict_update fold_left fst snd].
    rewrite lookup_insert_eq, insert_insert_eq.
    unfold get_outcome, get_request, get_headers, parse, response_json, after_call, stamp, ret, raise.
    destruct (httpx_send _) as [st tx|e]; cbn [fst snd]; [|done].
    destruct (400 <=? st); [done|]. destruct (json_loads tx); done.
  - rewrite lookup_insert_eq.
    unfold get_outcome, get_request, get_headers, parse, response_json, after_call, ret, raise.
    destruct (httpx_send _) as [st tx|e]; cbn [fst snd]; [|done].
    destruct (400 <=? st); [done|]. destruct (json_loads tx); done.
Qed.

Lemma create_order_run (o : OrderIn) (w : world) :
  create_order o w =
  if negb (bool_decide (str_upper (symbol o) ∈ ALLOWED_SYMBOLS)) then
    (Raise (HTTPException 400 msg_symbol), w)
  else if negb (confirmed o) then
    (Raise (HTTPException 400 msg_confirm), w)
  else
    let l := fresh (dom (heap w)) in
    match checked_fields o with
    | inl msg =>
        (Raise (HTTPException 400 msg), with_heap w (<[l := base_params o]> (heap w)))
    | inr extra =>
        let d := stamp w (base_params o ++ extra) in
        let rq := post_request "/api/v3/order" (_sign d) in
        (wrap_response (post_outcome (httpx_send rq)),
         after_call w (<[l := d]> (heap w)) true rq)
    end.
Proof.
  unfold create_order.
  destruct (negb (bool_decide _)); [done|].
  destruct (negb (confirmed o)); [done|].
  unfold checked_fields, bind at 1. unfold new_dict at 1.
  set (l := fresh (dom (heap w))). fold (base_params o).
  set (w1 := {| heap := <[l:=base_params o]> (heap w) |}).
  assert (Hl : heap w1 !! l = Some (base_params o)) by apply lookup_insert_eq.
  assert (Hpost : forall extra,
    (update l extra ;;; let! result := _post "/api/v3/order" l true in
       ret (JDict [("exchange_response"%string, result)])) w1 =
    let d := stamp w (dict_update (base_params o) extra) in
    let rq := post_request "/api/v3/order" (_sign d) in
    (wrap_response (post_outcome (httpx_send rq)), after_call w (<[l := d]> (heap w)) true rq)).
  { intros extra. unfold bind at 1. unfold update at 1. rewrite Hl.
    unfold bind.
    erewrite post_run by apply lookup_insert_eq.
    cbn [heap clock_reads sent]. rewrite !insert_insert_eq.
    unfold wrap_response, ret, stamp, after_call; cbn [heap clock_reads sent].
    unfold w1; cbn [heap clock_reads sent].
    rewrite !insert_insert_eq.
    destruct (post_outcome _); done. }
  destruct (type o), (side o).
  - destruct (quote_amount o) as [q|]; cbn [opt_bool negb]; [|done].
    destruct (float_bool q); cbn [negb]; [|done].
    unfold bind at 1. cbn [exceeds_max ret].
    destruct (float_gt q MAX_QUOTE_TRADE_USDT); [done|].
    unfold bind at 1. cbn [format_opt ret]. unfold bind at 1. cbn [format_opt ret].
    apply Hpost.
  - destruct (quantity o) as [q|]; cbn [opt_bool negb]; [|done].
    destruct (float_bool q); cbn [negb]; [|done].
    unfold bind at 1. cbn [format_opt ret]. unfold bind at 1. cbn [format_opt ret].
    apply Hpost.
  - destruct (quantity o) as [q|], (price o) as [p|]; cbn [opt_bool negb andb]; try done.
    + destruct (float_bool q), (float_bool p); cbn [negb andb]; try done.
      apply Hpost.
    + destruct (float_bool q); done.
  - destruct (quantity o) as [q|], (price o) as [p|]; cbn [opt_bool negb andb]; try done.
    + destruct (float_bool q), (float_bool p); cbn [negb andb]; try done.
      apply Hpost.
    + destruct (float_bool q); done.
Qed.

(** *** One request per call, and what comes back *)

Lemma get_call (path : string) (params : option nat) (signed : bool) (w : world) :
  (forall l, params = Some l -> is_Some (heap w !! l)) ->
  exists rq,
    sent (snd (_get path params signed w)) = sent w ++ [rq] /\
    fst (_get path params signed w) = get_outcome (httpx_send rq).
Proof.
  intros Hp. destruct params as [l|].
  - destruct (Hp l eq_refl) as [d Hd]. destruct d as [|kv d].
    + rewrite (get_run_fresh path (Some l) signed w Hd). by eexists.
    + rewrite (get_run_own path l signed w (kv :: d) Hd) by done. by eexists.
  - rewrite (get_run_fresh path None signed w I). by eexists.
Qed.

Lemma post_call (path : string) (l : nat) (signed : bool) (w : world) :
  is_Some (heap w !! l) ->
  exists rq,
    sent (snd (_post path l signed w)) = sent w ++ [rq] /\
    fst (_post path l signed w) = post_outcome (httpx_send rq).
Proof.
  intros [d Hd]. rewrite (post_run path l signed w d Hd). by eexists.
Qed.

Lemma create_order_call (o : OrderIn) (w : world) :
  sent (snd (create_order o w)) = sent w /\
    (exists msg, fst (create_order o w) = Raise (HTTPException 400 msg)) /\
    (str_upper (symbol o) ∉ ALLOWED_SYMBOLS \/ confirmed o = false \/
     exists msg, checked_fields o = inl msg)
  \/
  str_upper (symbol o) ∈ ALLOWED_SYMBOLS /\ confirmed o = true /\
    exists extra,
      checked_fields o = inr extra /\
      let rq := post_request "/api/v3/order" (_sign (stamp w (base_params o ++ extra))) in
      sent (snd (create_order o w)) = sent w ++ [rq] /\
      fst (create_order o w) = wrap_response (post_outcome (httpx_send rq)).
Proof.
  rewrite create_order_run.
  destruct (bool_decide_reflect (str_upper (symbol o) ∈ ALLOWED_SYMBOLS)) as [Hin|Hout];
    cbn [negb]; [|left; eauto 6].
  destruct (confirmed o); cbn [negb]; [|left; eauto 6].
  cbv zeta. destruct (checked_fields o) as [msg|extra]; [left; eauto 7|].
  right. eauto 8.
Qed.

Lemma sent_grows (l : list request) (rq : request) : l ++ [rq] <> l.
Proof.
  intros H. apply (f_equal length) in H. rewrite length_app in H. simpl in H. lia.
Qed.

(** *** sorted keeps the elements *)

Lemma elem_of_insert_sorted (x a : string) (l : list string) :
  x ∈ insert_sorted a l <-> x = a \/ x ∈ l.
Proof.
  induction l as [|y l IH]; cbn [insert_sorted].
  - rewrite elem_of_cons. done.
  - destruct (String.leb a y); rewrite !elem_of_cons; [done|].
    rewrite IH. tauto.
Qed.

Lemma elem_of_sorted (x : string) (l : list string) : x ∈ sorted l <-> x ∈ l.
Proof.
  unfold sorted. induction l as [|y l IH]; cbn [fold_right]; [done|].
  rewrite elem_of_insert_sorted, elem_of_cons, IH. done.
Qed.

(** *** The claims that hold as stated *)

(** C2: an order whose upper-cased symbol is not in the allowed set is
    answered with HTTP 400 and a reason that lists the (sorted) allowed set,
    and nothing is sent; more generally, whenever the symbol check, the
    confirmation check or a required-field check fails, the answer is an
    HTTP 400 and the list of requests sent is unchanged. *)
Theorem validation_failure_is_local (o : OrderIn) (w : world) :
  str_upper (symbol o) ∉ ALLOWED_SYMBOLS \/ confirmed o = false \/
    (exists msg, checked_fields o = inl msg) ->
  (exists reason, fst (create_order o w) = Raise (HTTPException 400 reason)) /\
  sent (snd (create_order o w)) = sent w /\
  (str_upper (symbol o) ∉ ALLOWED_SYMBOLS ->
     fst (create_order o w) =
       Raise (HTTPException 400
         ("Pair non autorisée. Autorisées: " +:+
          repr_list str_repr (sorted (elements ALLOWED_SYMBOLS)))) /\
     forall s, s ∈ sorted (elements ALLOWED_SYMBOLS) <-> s ∈ ALLOWED_SYMBOLS).
Proof.
  intros Hfail.
  destruct (create_order_call o w) as [(Hsent & Hmsg & _)|(Hin & Hc & extra & Hx & _)].
  - split; [done|]. split; [done|]. intros Hout. split.
    + rewrite create_order_run. rewrite bool_decide_eq_false_2 by done. done.
    + intros s0. rewrite elem_of_sorted. apply elem_of_elements.
  - exfalso. destruct Hfail as [Hout|[Hnc|[msg Hm]]]; [done|congruence|congruence].
Qed.

(** C3: the signer returns the form-encoded query string of the mapping
    followed by [&signature=] and the lower-case hexadecimal HMAC-SHA256 of
    that query string under the secret; the signature has 64 digits, it is
    recovered together with the signed text by reading the string back, and
    it depends on the mapping only through the query string. *)
Theorem sign_spec (params : dict) :
  let qs := urlencode params in
  let sig := hexdigest (Hmac.digest (encode BINANCE_SECRET) (encode qs)) in
  _sign params = qs +:+ "&signature=" +:+ sig /\
  String.length sig = 64%nat /\ all_lower_hex sig = true /\
  signed_parts (_sign params) = Some (qs, sig) /\
  forall params', urlencode params' = qs -> _sign params' = _sign params.
Proof.
  intros qs sig.
  assert (Hlen : String.length sig = 64%nat).
  { unfold sig. rewrite hexdigest_length, hmac_digest_length. reflexivity. }
  split; [reflexivity|]. split; [exact Hlen|]. split; [apply hexdigest_lower|].
  split; [apply signed_parts_append, Hlen|].
  intros params' Hq. unfold _sign. by rewrite Hq.
Qed.

(** C4: an order with [confirmed] false is answered with HTTP 400 and
    nothing is sent, whatever its other fields; a body without the field
    yields [confirmed] false; and whenever a request has been sent the order
    carried [confirmed] true. *)
Theorem unconfirmed_is_rejected (o : OrderIn) (b : OrderBody) (w : world) :
  (confirmed o = false ->
     (exists reason, fst (create_order o w) = Raise (HTTPException 400 reason)) /\
     sent (snd (create_order o w)) = sent w /\
     (str_upper (symbol o) ∈ ALLOWED_SYMBOLS ->
        create_order o w = (Raise (HTTPException 400 "Confirmation manquante."), w))) /\
  (body_confirmed b = None -> confirmed (OrderIn_of_body b) = false) /\
  (sent (snd (create_order o w)) <> sent w -> confirmed o = true).
Proof.
  split; [|split].
  - intros Hc. destruct (create_order_call o w) as [(Hsent & Hmsg & _)|(_ & Hc' & _)];
      [|congruence].
    split; [done|]. split; [done|]. intros Hin.
    rewrite create_order_run, bool_decide_eq_true_2, Hc by done. done.
  - intros Hb. unfold OrderIn_of_body. cbn. by rewrite Hb.
  - intros Hs. destruct (create_order_call o w) as [(Hsent & _)|(_ & Hc & _)]; done.
Qed.

(** C5: when the request issued by _get or _post gets no response (time-out
    or connection failure), the call raises the transport's own error; that
    error is not an HTTPException, the class used both for upstream
    rejections and for validation failures, and an order that reached the
    network surfaces it unchanged. *)
Theorem unreachable_is_distinct
    (path : string) (params : option nat) (l : nat) (signed : bool)
    (o : OrderIn) (w : world) :
  (forall l', params = Some l' -> is_Some (heap w !! l')) ->
  is_Some (heap w !! l) ->
  (exists rq, sent (snd (_get path params signed w)) = sent w ++ [rq] /\
     forall e, httpx_send rq = NoResponse e ->
       fst (_get path params signed w) = Raise (HttpxError e)) /\
  (exists rq, sent (snd (_post path l signed w)) = sent w ++ [rq] /\
     forall e, httpx_send rq = NoResponse e ->
       fst (_post path l signed w) = Raise (HttpxError e)) /\
  (forall rq e, sent (snd (create_order o w)) = sent w ++ [rq] ->
     httpx_send rq = NoResponse e ->
     fst (create_order o w) = Raise (HttpxError e)) /\
  (forall e st tx, HttpxError e <> HTTPException st tx).
Proof.
  intros Hp Hl. split; [|split; [|split]].
  - destruct (get_call path params signed w Hp) as (rq & Hs & Hr).
    exists rq. split; [done|]. intros e He. by rewrite Hr, He.
  - destruct (post_call path l signed w Hl) as (rq & Hs & Hr).
    exists rq. split; [done|]. intros e He. by rewrite Hr, He.
  - intros rq e Hs He.
    destruct (create_order_call o w) as [(Hsent & _)|(_ & _ & extra & _ & Hs' & Hr)].
    + rewrite Hsent in Hs. symmetry in Hs. by apply sent_grows in Hs.
    + cbv zeta in Hs', Hr. set (rq' := post_request _ _) in *.
      rewrite Hs' in Hs. apply app_inv_head in Hs.
      assert (Hrq : rq' = rq) by congruence.
      rewrite Hr, Hrq, He. done.
  - done.
Qed.

(** C6: when the response to the request issued by _get or _post has a
    status of 400 or more, the call raises an HTTPException with that
    status and the response text, unchanged. *)
Theorem upstream_rejection_verbatim
    (path : string) (params : option nat) (l : nat) (signed : bool) (w : world) :
  (forall l', params = Some l' -> is_Some (heap w !! l')) ->
  is_Some (heap w !! l) ->
  (exists rq, sent (snd (_get path params signed w)) = sent w ++ [rq] /\
     forall st tx, httpx_send rq = Response st tx -> 400 <= st ->
       fst (_get path params signed w) = Raise (HTTPException st tx)) /\
  (exists rq, sent (snd (_post path l signed w)) = sent w ++ [rq] /\
     forall st tx, httpx_send rq = Response st tx -> 400 <= st ->
       fst (_post path l signed w) = Raise (HTTPException st tx)).
Proof.
  intros Hp Hl. split.
  - destruct (get_call path params signed w Hp) as (rq & Hs & Hr).
    exists rq. split; [done|]. intros st tx He Hst. rewrite Hr, He. cbn.
    destruct (Z.leb_spec 400 st); [done|lia].
  - destruct (post_call path l signed w Hl) as (rq & Hs & Hr).
    exists rq. split; [done|]. intros st tx He Hst. rewrite Hr, He. cbn.
    destruct (Z.leb_spec 400 st); [done|lia].
Qed.

(** *** The claims that hold in an amended form *)

Lemma create_order_rejects (o : OrderIn) (w : world) (msg : string) :
  str_upper (symbol o) ∈ ALLOWED_SYMBOLS -> confirmed o = true ->
  checked_fields o = inl msg ->
  fst (create_order o w) = Raise (HTTPException 400 msg) /\
  sent (snd (create_order o w)) = sent w.
Proof.
  intros Hin Hc Hf. rewrite create_order_run, bool_decide_eq_true_2, Hc by done.
  cbn [negb]. cbv zeta. by rewrite Hf.
Qed.

Lemma create_order_forwards (o : OrderIn) (w : world) (extra : dict) :
  str_upper (symbol o) ∈ ALLOWED_SYMBOLS -> confirmed o = true ->
  checked_fields o = inr extra ->
  let d := stamp w (base_params o ++ extra) in
  sent (snd (create_order o w)) = sent w ++ [post_request "/api/v3/order" (_sign d)] /\
  heap (snd (create_order o w)) !! fresh (dom (heap w)) = Some d.
Proof.
  intros Hin Hc Hf. rewrite create_order_run, bool_decide_eq_true_2, Hc by done.
  cbn [negb]. cbv zeta. rewrite Hf. cbn [snd after_call sent heap].
  by rewrite lookup_insert_eq.
Qed.

(** C1 (amended): for a MARKET BUY order that passed the symbol and
    confirmation checks, an absent or zero quote_amount is rejected with
    HTTP 400 and nothing is sent; a non-zero quote_amount greater than the
    configured maximum is rejected with HTTP 400 and a reason that shows the
    maximum, and nothing is sent; every other non-zero quote_amount, one
    equal to the maximum included, is forwarded as quoteOrderQty in the
    [.2f] format, which has exactly two decimals when the amount is
    finite. *)
Theorem market_buy_amount_gate (o : OrderIn) (w : world) :
  type o = MARKET -> side o = BUY ->
  str_upper (symbol o) ∈ ALLOWED_SYMBOLS -> confirmed o = true ->
  (opt_bool (quote_amount o) = false ->
     fst (create_order o w) =
       Raise (HTTPException 400 "Pour BUY MARKET, fournir quote_amount.") /\
     sent (snd (create_order o w)) = sent w) /\
  forall q, quote_amount o = Some q -> float_bool q = true ->
    (float_gt q MAX_QUOTE_TRADE_USDT = true ->
       fst (create_order o w) =
         Raise (HTTPException 400
                  ("Montant > limite " +:+ float_str MAX_QUOTE_TRADE_USDT +:+ " USDT.")) /\
       sent (snd (create_order o w)) = sent w) /\
    (float_gt q MAX_QUOTE_TRADE_USDT = false ->
       sent (snd (create_order o w)) =
         sent w ++ [post_request "/api/v3/order"
           (_sign [("symbol"%string, VStr (str_upper (symbol o)));
                   ("side"%string, VStr "BUY"); ("type"%string, VStr "MARKET");
                   ("quoteOrderQty"%string, VStr (format_f 2 q));
                   ("timestamp"%string, VInt (time_ms (clock_reads w)))])] /\
       (is_finite q = true -> fixed_decimal 2 (format_f 2 q))) /\
    (float_eqb q MAX_QUOTE_TRADE_USDT = true -> float_gt q MAX_QUOTE_TRADE_USDT = false).
Proof.
  intros Ht Hs Hin Hc. split.
  - intros Hq. apply create_order_rejects; [done..|].
    unfold checked_fields. rewrite Ht, Hs.
    destruct (quote_amount o) as [q|]; [|done]. cbn in Hq. by rewrite Hq.
  - intros q Hq Hb. split; [|split].
    + intros Hgt. apply create_order_rejects; [done..|].
      unfold checked_fields. by rewrite Ht, Hs, Hq, Hb, Hgt.
    + intros Hgt. split; [|intros Hf; by apply format_f_fixed; [lia|]].
      destruct (create_order_forwards o w
        [("quoteOrderQty"%string, VStr (format_f 2 q))] Hin Hc) as [Hsent _].
      { unfold checked_fields. by rewrite Ht, Hs, Hq, Hb, Hgt. }
      rewrite Hsent. unfold base_params. rewrite Ht, Hs. reflexivity.
    + apply float_eq_not_gt.
Qed.

(** C7 (amended): for a LIMIT order that passed the symbol and confirmation
    checks, a missing or zero quantity or price is rejected with a reason
    naming both fields, and otherwise quantity is forwarded in the [.6f]
    format, price in the [.2f] format and timeInForce=GTC is attached; for a
    MARKET SELL order a missing or zero quantity is rejected and otherwise
    quantity is forwarded in the [.6f] format. The forwarded text has exactly
    6 (resp. 2) decimals whenever the value is finite. *)
Theorem limit_and_sell_fields (o : OrderIn) (w : world) :
  str_upper (symbol o) ∈ ALLOWED_SYMBOLS -> confirmed o = true ->
  (type o = LIMIT ->
     (opt_bool (quantity o) && opt_bool (price o) = false ->
        fst (create_order o w) =
          Raise (HTTPException 400 "Pour LIMIT, fournir quantity et price.") /\
        sent (snd (create_order o w)) = sent w) /\
     forall q p, quantity o = Some q -> price o = Some p ->
       float_bool q = true -> float_bool p = true ->
       sent (snd (create_order o w)) =
         sent w ++ [post_request "/api/v3/order"
           (_sign [("symbol"%string, VStr (str_upper (symbol o)));
                   ("side"%string, VStr (side_str (side o)));
                   ("type"%string, VStr "LIMIT");
                   ("quantity"%string, VStr (format_f 6 q));
                   ("price"%string, VStr (format_f 2 p));
                   ("timeInForce"%string, VStr "GTC");
                   ("timestamp"%string, VInt (time_ms (clock_reads w)))])] /\
       (is_finite q = true -> fixed_decimal 6 (format_f 6 q)) /\
       (is_finite p = true -> fixed_decimal 2 (format_f 2 p))) /\
  (type o = MARKET -> side o = SELL ->
     (opt_bool (quantity o) = false ->
        fst (create_order o w) =
          Raise (HTTPException 400 "Pour SELL MARKET, fournir quantity.") /\
        sent (snd (create_order o w)) = sent w) /\
     forall q, quantity o = Some q -> float_bool q = true ->
       sent (snd (create_order o w)) =
         sent w ++ [post_request "/api/v3/order"
           (_sign [("symbol"%string, VStr (str_upper (symbol o)));
                   ("side"%string, VStr "SELL"); ("type"%string, VStr "MARKET");
                   ("quantity"%string, VStr (format_f 6 q));
                   ("timestamp"%string, VInt (time_ms (clock_reads w)))])] /\
       (is_finite q = true -> fixed_decimal 6 (format_f 6 q))).
Proof.
  intros Hin Hc. split.
  - intros Ht. split.
    + intros Hq. apply create_order_rejects; [done..|].
      unfold checked_fields. rewrite Ht.
      destruct (quantity o) as [q|], (price o) as [p|]; cbn in Hq |- *; try done.
      by rewrite Hq.
    + intros q p Hq Hp Hbq Hbp.
      split; [|split; intros Hf; by apply format_f_fixed; [lia|]].
      destruct (create_order_forwards o w
        [("quantity"%string, VStr (format_f 6 q)); ("price"%string, VStr (format_f 2 p));
         ("timeInForce"%string, VStr "GTC")] Hin Hc) as [Hsent _].
      { unfold checked_fields. by rewrite Ht, Hq, Hp, Hbq, Hbp. }
      rewrite Hsent. unfold base_params. rewrite Ht. reflexivity.
  - intros Ht Hs. split.
    + intros Hq. apply create_order_rejects; [done..|].
      unfold checked_fields. rewrite Ht, Hs.
      destruct (quantity o) as [q|]; [|done]. cbn in Hq. by rewrite Hq.
    + intros q Hq Hb. split; [|intros Hf; by apply format_f_fixed; [lia|]].
      destruct (create_order_forwards o w
        [("quantity"%string, VStr (format_f 6 q))] Hin Hc) as [Hsent _].
      { unfold checked_fields. by rewrite Ht, Hs, Hq, Hb. }
      rewrite Hsent. unfold base_params. rewrite Ht, Hs. reflexivity.
Qed.



(** ** Further properties of the code *)

(** *** The allowed set read from the environment *)

Lemma split_on_nonempty (sep : ascii) (s : string) : split_on sep s <> [].
Proof.
  induction s as [|c s IH]; cbn [split_on]; [done|].
  destruct (Ascii.eqb c sep); [done|]. by destruct (split_on sep s).
Qed.

Lemma has_char_cons (sep c : ascii) (s : string) :
  has_char sep (String c s) = Ascii.eqb sep c || has_char sep s.
Proof. reflexivity. Qed.

Lemma has_char_append (sep : ascii) (a b : string) :
  has_char sep (a +:+ b) = has_char sep a || has_char sep b.
Proof. unfold has_char. by rewrite chars_append, existsb_app. Qed.

Lemma split_on_pieces (sep : ascii) (s : string) :
  Forall (fun piece => has_char sep piece = false) (split_on sep s).
Proof.
  induction s as [|c s IH]; cbn [split_on]; [by constructor|].
  destruct (Ascii.eqb c sep) eqn:E; [by constructor|].
  destruct (split_on sep s) as [|piece pieces] eqn:Es;
    [by apply split_on_nonempty in Es|].
  inversion IH as [|? ? Hp Hps]; subst. constructor; [|done].
  rewrite has_char_cons, Hp, orb_false_r.
  rewrite Ascii.eqb_sym. exact E.
Qed.

Lemma join_cons (sep : string) (c : ascii) (piece : string) (pieces : list string) :
  join sep (String c piece :: pieces) = String c (join sep (piece :: pieces)).
Proof. by destruct pieces. Qed.

Lemma join_split_on (sep : ascii) (s : string) :
  join (String sep EmptyString) (split_on sep s) = s.
Proof.
  induction s as [|c s IH]; cbn [split_on]; [done|].
  destruct (Ascii.eqb_spec c sep) as [->|Hne].
  - destruct (split_on sep s) as [|piece pieces] eqn:E;
      [by apply split_on_nonempty in E|].
    transitivity (String sep (join (String sep EmptyString) (piece :: pieces)));
      [reflexivity|by rewrite IH].
  - destruct (split_on sep s) as [|piece pieces] eqn:E;
      [by apply split_on_nonempty in E|].
    by rewrite join_cons, IH.
Qed.

Lemma split_on_plain (sep : ascii) (a : string) :
  has_char sep a = false -> split_on sep a = [a].
Proof.
  induction a as [|c a IH]; [done|].
  rewrite has_char_cons. intros [Hc Ha]%orb_false_elim.
  cbn [split_on]. rewrite Ascii.eqb_sym, Hc, (IH Ha). done.
Qed.

Lemma split_on_append (sep : ascii) (a b : string) :
  has_char sep a = false ->
  split_on sep (a +:+ String sep b) = a :: split_on sep b.
Proof.
  induction a as [|c a IH].
  - intros _. change (EmptyString +:+ String sep b) with (String sep b).
    cbn [split_on]. by rewrite Ascii.eqb_refl.
  - rewrite has_char_cons. intros [Hc Ha]%orb_false_elim.
    change (String c a +:+ String sep b) with (String c (a +:+ String sep b)).
    cbn [split_on]. rewrite Ascii.eqb_sym, Hc, (IH Ha). done.
Qed.

(** X1: the allowed set is the set of comma-separated pieces of the
    variable, taken verbatim: it is never empty, no member contains a comma,
    and joining the pieces with commas gives the variable's text back (no
    piece is trimmed or dropped). *)
Theorem allowed_symbols_of_env (v : option string) :
  (exists s, s ∈ ALLOWED_SYMBOLS_of_env v) /\
  (forall s, s ∈ ALLOWED_SYMBOLS_of_env v -> has_char "," s = false) /\
  (forall s, s ∈ ALLOWED_SYMBOLS_of_env v <->
             s ∈ split_on "," (getenv v "BTCUSDT,ETHUSDT")) /\
  join "," (split_on "," (getenv v "BTCUSDT,ETHUSDT")) = getenv v "BTCUSDT,ETHUSDT".
Proof.
  unfold ALLOWED_SYMBOLS_of_env. set (text := getenv v _).
  assert (Hmem : forall s, s ∈ (list_to_set (split_on "," text) : gset string) <->
                           s ∈ split_on "," text) by (intros; apply elem_of_list_to_set).
  split; [|split; [|split]].
  - destruct (split_on "," text) as [|piece pieces] eqn:E;
      [by apply split_on_nonempty in E|].
    exists piece. apply Hmem. left.
  - intros s Hs. apply Hmem in Hs.
    pose proof (split_on_pieces "," text) as Hall.
    rewrite Forall_forall in Hall. by apply Hall.
  - exact Hmem.
  - apply join_split_on.
Qed.


(** *** Form encoding and its inverse *)

Lemma quote_char_safe (c : ascii) : all_form_safe (quote_char c) = true.
Proof. destruct c as [[] [] [] [] [] [] [] []]; vm_compute; reflexivity. Qed.

Lemma quote_plus_safe (s : string) : all_form_safe (quote_plus s) = true.
Proof.
  unfold all_form_safe. induction s as [|c s IH]; [done|].
  cbn [quote_plus]. rewrite chars_append, forallb_app, IH.
  by rewrite (quote_char_safe c : forallb _ _ = true).
Qed.

Lemma form_safe_not_separator (c : ascii) :
  form_safe c = true ->
  Ascii.eqb "&" c = false /\ Ascii.eqb "=" c = false /\ Ascii.eqb "?" c = false /\
  Ascii.eqb "#" c = false /\ Ascii.eqb "/" c = false /\ Ascii.eqb " " c = false.
Proof.
  destruct c as [[] [] [] [] [] [] [] []]; vm_compute; intros Hc;
    try discriminate Hc; repeat split.
Qed.

Lemma all_form_safe_no_char (sep : ascii) (s : string) :
  (forall c, form_safe c = true -> Ascii.eqb sep c = false) ->
  all_form_safe s = true -> has_char sep s = false.
Proof.
  intros Hsep. unfold all_form_safe, has_char.
  induction (list_ascii_of_string s) as [|c l IH]; [done|].
  cbn [forallb existsb]. intros [Hc Hl]%andb_true_iff.
  by rewrite (Hsep c Hc), (IH Hl).
Qed.

Lemma quote_plus_no_amp (s : string) : has_char "&" (quote_plus s) = false.
Proof.
  apply all_form_safe_no_char; [|apply quote_plus_safe].
  intros c Hc. by apply form_safe_not_separator in Hc as (? & _).
Qed.

Lemma quote_plus_no_eq (s : string) : has_char "=" (quote_plus s) = false.
Proof.
  apply all_form_safe_no_char; [|apply quote_plus_safe].
  intros c Hc. by apply form_safe_not_separator in Hc as (_ & ? & _).
Qed.

Lemma unquote_quote_char (c : ascii) (rest : string) :
  unquote_plus (quote_char c +:+ rest) = String c (unquote_plus rest).
Proof. destruct c as [[] [] [] [] [] [] [] []]; reflexivity. Qed.

Lemma append_assoc (a b c : string) : (a +:+ b) +:+ c = a +:+ (b +:+ c).
Proof.
  induction a as [|x a IH]; [reflexivity|].
  change (String x ((a +:+ b) +:+ c) = String x (a +:+ (b +:+ c))). by rewrite IH.
Qed.

Lemma append_empty_r (a : string) : a +:+ EmptyString = a.
Proof.
  induction a as [|x a IH]; [reflexivity|].
  change (String x (a +:+ EmptyString) = String x a). by rewrite IH.
Qed.

Lemma unquote_quote_append (s rest : string) :
  unquote_plus (quote_plus s +:+ rest) = s +:+ unquote_plus rest.
Proof.
  induction s as [|c s IH]; [reflexivity|].
  cbn [quote_plus]. rewrite append_assoc, unquote_quote_char, IH. reflexivity.
Qed.

Lemma unquote_quote (s : string) : unquote_plus (quote_plus s) = s.
Proof.
  rewrite <- (append_empty_r (quote_plus s)), unquote_quote_append.
  apply append_empty_r.
Qed.

Lemma partition_at_append (sep : ascii) (a b : string) :
  has_char sep a = false -> partition_at sep (a +:+ String sep b) = (a, b).
Proof.
  induction a as [|c a IH].
  - intros _. change (EmptyString +:+ String sep b) with (String sep b).
    cbn [partition_at]. by rewrite Ascii.eqb_refl.
  - rewrite has_char_cons. intros [Hc Ha]%orb_false_elim.
    change (String c a +:+ String sep b) with (String c (a +:+ String sep b)).
    cbn [partition_at]. rewrite Ascii.eqb_sym, Hc, (IH Ha). done.
Qed.

Lemma nonempty_append_cons (a b : string) (c : ascii) :
  nonempty (a +:+ String c b) = true.
Proof. by destruct a. Qed.

Lemma filter_all {A} (P : A -> bool) (l : list A) :
  Forall (fun x => P x = true) l -> List.filter P l = l.
Proof.
  induction 1 as [|x l Hx Hl IH]; [done|]. cbn [List.filter]. by rewrite Hx, IH.
Qed.

Lemma split_on_join (sep : ascii) (fields : list string) :
  fields <> [] -> Forall (fun f => has_char sep f = false) fields ->
  split_on sep (join (String sep EmptyString) fields) = fields.
Proof.
  induction fields as [|x fields IH]; [done|]. intros _ Hall.
  inversion Hall as [|? ? Hx Hrest]; subst.
  destruct fields as [|y fields]; [by apply split_on_plain|].
  change (join (String sep EmptyString) (x :: y :: fields))
    with (x +:+ String sep (join (String sep EmptyString) (y :: fields))).
  rewrite split_on_append by done. by rewrite IH.
Qed.

Lemma join_snoc (sep : string) (fields : list string) (f : string) :
  fields <> [] -> join sep (fields ++ [f]) = join sep fields +:+ sep +:+ f.
Proof.
  induction fields as [|x fields IH]; [done|]. intros _.
  destruct fields as [|y fields]; [reflexivity|].
  change (join sep ((x :: y :: fields) ++ [f]))
    with (x +:+ sep +:+ join sep ((y :: fields) ++ [f])).
  rewrite IH by done.
  change (join sep (x :: y :: fields)) with (x +:+ sep +:+ join sep (y :: fields)).
  by rewrite !append_assoc.
Qed.

Lemma decode_field (k v : string) :
  let f := quote_plus k +:+ "=" +:+ quote_plus v in
  (unquote_plus (fst (partition_eq f)), unquote_plus (snd (partition_eq f))) = (k, v).
Proof.
  cbv zeta. unfold partition_eq.
  change (quote_plus k +:+ "=" +:+ quote_plus v)
    with (quote_plus k +:+ String "=" (quote_plus v)).
  rewrite partition_at_append by apply quote_plus_no_eq.
  cbn [fst snd]. by rewrite !unquote_quote.
Qed.

Lemma field_no_amp (k v : string) :
  has_char "&" (quote_plus k +:+ "=" +:+ quote_plus v) = false.
Proof. by rewrite !has_char_append, !quote_plus_no_amp. Qed.

Lemma parse_urlencode (d : dict) : parse_qsl (urlencode d) = dict_text d.
Proof.
  destruct d as [|kv d]; [reflexivity|].
  unfold parse_qsl, urlencode.
  set (enc := fun kv : string * pyval =>
                quote_plus (fst kv) +:+ "=" +:+ quote_plus (py_str (snd kv))).
  rewrite split_on_join.
  - rewrite filter_all.
    + rewrite map_map. unfold dict_text. apply map_ext. intros [k v].
      apply decode_field.
    + apply Forall_map, Forall_true. intros [k v].
      apply (nonempty_append_cons (quote_plus k) (quote_plus (py_str v)) "=").
  - done.
  - apply Forall_map, Forall_true. intros [k v]. apply field_no_amp.
Qed.

(** X2: decoding the form-encoded text of a mapping gives back its keys and
    the text of its values, in order; so two mappings with the same encoded
    text have the same keys and value texts. *)
Theorem urlencode_roundtrip (params : dict) :
  parse_qsl (urlencode params) = dict_text params /\
  forall params', urlencode params' = urlencode params ->
                  dict_text params' = dict_text params.
Proof.
  split; [apply parse_urlencode|].
  intros params' Heq. by rewrite <- (parse_urlencode params'), Heq, parse_urlencode.
Qed.

Lemma lower_hex_not_special (c : ascii) :
  is_lower_hex c = true ->
  Ascii.eqb "&" c = false /\ Ascii.eqb "=" c = false /\
  Ascii.eqb c "+" = false /\ Ascii.eqb c "%" = false.
Proof.
  destruct c as [[] [] [] [] [] [] [] []]; vm_compute; intros Hc;
    try discriminate Hc; repeat split.
Qed.

Lemma lower_hex_no_char (sep : ascii) (s : string) :
  (forall c, is_lower_hex c = true -> Ascii.eqb sep c = false) ->
  all_lower_hex s = true -> has_char sep s = false.
Proof.
  intros Hsep. unfold all_lower_hex, has_char.
  induction (list_ascii_of_string s) as [|c l IH]; [done|].
  cbn [forallb existsb]. intros [Hc Hl]%andb_true_iff.
  by rewrite (Hsep c Hc), (IH Hl).
Qed.

Lemma unquote_lower_hex (s : string) : all_lower_hex s = true -> unquote_plus s = s.
Proof.
  unfold all_lower_hex. induction s as [|c s IH]; [done|].
  cbn [list_ascii_of_string forallb]. intros [Hc Hs]%andb_true_iff.
  apply lower_hex_not_special in Hc as (_ & _ & Hplus & Hpct).
  cbn [unquote_plus]. by rewrite Hplus, Hpct, (IH Hs).
Qed.

Lemma parse_sign (params : dict) :
  parse_qsl (_sign params) =
  dict_text params ++
  [("signature"%string,
    hexdigest (Hmac.digest (encode BINANCE_SECRET) (encode (urlencode params))))].
Proof.
  unfold _sign. set (sig := hexdigest _).
  assert (Hhex : all_lower_hex sig = true) by apply hexdigest_lower.
  assert (Hamp : has_char "&" sig = false).
  { apply lower_hex_no_char; [|done]. intros c Hc.
    by apply lower_hex_not_special in Hc as (? & _). }
  assert (Heq : has_char "=" sig = false).
  { apply lower_hex_no_char; [|done]. intros c Hc.
    by apply lower_hex_not_special in Hc as (_ & ? & _). }
  set (f := ("signature=" +:+ sig)%string).
  assert (Hf : has_char "&" f = false) by (unfold f; by rewrite has_char_append, Hamp).
  assert (Hdec : (unquote_plus (fst (partition_eq f)), unquote_plus (snd (partition_eq f)))
                 = ("signature"%string, sig)).
  { unfold partition_eq, f.
    change ("signature=" +:+ sig) with ("signature" +:+ String "=" sig).
    rewrite partition_at_append by reflexivity. cbn [fst snd].
    rewrite (unquote_lower_hex sig Hhex). reflexivity. }
  change (urlencode params +:+ "&signature=" +:+ sig)
    with (urlencode params +:+ "&" +:+ f).
  destruct params as [|kv d].
  - change (urlencode [] +:+ "&" +:+ f) with (String "&" f).
    unfold parse_qsl. cbn [split_on]. rewrite Ascii.eqb_refl.
    rewrite (split_on_plain "&" f Hf). cbn [List.filter nonempty].
    replace (nonempty f) with true by reflexivity.
    cbn [map app dict_text]. by rewrite Hdec.
  - unfold urlencode.
    set (enc := fun kv : string * pyval =>
                  quote_plus (fst kv) +:+ "=" +:+ quote_plus (py_str (snd kv))).
    rewrite <- join_snoc by done.
    unfold parse_qsl. rewrite split_on_join.
    + rewrite filter_all.
      * rewrite map_app. f_equal; [|cbn [map]; by rewrite Hdec].
        rewrite map_map. unfold dict_text. apply map_ext. intros [k v].
        apply decode_field.
      * apply Forall_app. split; [|by repeat constructor].
        apply Forall_map, Forall_true. intros [k v].
        apply (nonempty_append_cons (quote_plus k) (quote_plus (py_str v)) "=").
    + done.
    + apply Forall_app. split; [|by repeat constructor].
      apply Forall_map, Forall_true. intros [k v]. apply field_no_amp.
Qed.

(** X3: the signed string decodes to the keys and value texts of the
    caller's mapping, in order, followed by exactly one more parameter,
    [signature], whose value is the hexadecimal HMAC-SHA256 of the encoded
    mapping under the secret; it is 75 characters longer than the encoded
    mapping. *)
Theorem sign_decodes (params : dict) :
  parse_qsl (_sign params) =
  dict_text params ++
  [("signature"%string,
    hexdigest (Hmac.digest (encode BINANCE_SECRET) (encode (urlencode params))))] /\
  String.length (_sign params) = (String.length (urlencode params) + 75)%nat.
Proof.
  split; [apply parse_sign|].
  unfold _sign. rewrite !length_append, hexdigest_length, hmac_digest_length.
  reflexivity.
Qed.

Lemma quote_plus_plain (s : string) :
  forallb is_unreserved (list_ascii_of_string s) = true -> quote_plus s = s.
Proof.
  induction s as [|c s IH]; [done|].
  cbn [list_ascii_of_string forallb]. intros [Hc Hs]%andb_true_iff.
  cbn [quote_plus]. unfold quote_char. rewrite Hc, (IH Hs). reflexivity.
Qed.

Lemma uint_unreserved (u : Decimal.uint) :
  forallb is_unreserved (list_ascii_of_string (NilEmpty.string_of_uint u)) = true.
Proof. induction u; simpl; try reflexivity; exact IHu. Qed.

Lemma str_int_unreserved (n : Z) :
  forallb is_unreserved (list_ascii_of_string (str_int n)) = true.
Proof.
  assert (Hu : forall u, forallb is_unreserved
                 (list_ascii_of_string (NilZero.string_of_uint u)) = true).
  { intros u. unfold NilZero.string_of_uint.
    destruct u; try apply (uint_unreserved (_ u)). reflexivity. }
  unfold str_int. destruct (Z.to_int n) as [u|u]; cbn [NilZero.string_of_int].
  - apply Hu.
  - cbn [list_ascii_of_string forallb]. by rewrite Hu.
Qed.

Lemma quote_plus_str_int (n : Z) : quote_plus (str_int n) = str_int n.
Proof. apply quote_plus_plain, str_int_unreserved. Qed.

(** *** get_price *)

Lemma get_price_run (s : string) (w : world) :
  let sym := str_upper s in
  let d := [("symbol"%string, VStr sym)] in
  let rq := get_request "/api/v3/ticker/price" (urlencode d) in
  get_price s w =
  (match get_outcome (httpx_send rq) with
   | Raise e => Throw (Exn e)
   | Ok data =>
       match subscript data "price" with
       | Throw e => Throw e
       | Return p =>
           match to_float p with
           | Throw e => Throw e
           | Return x =>
               Return (JDict [("symbol"%string, JStr sym); ("price"%string, JNum x)])
           end
       end
   end,
   {| heap := <[fresh (dom (heap w)) := d]> (heap w);
      clock_reads := clock_reads w; sent := sent w ++ [rq] |}).
Proof.
  intros sym d rq. unfold get_price. fold sym.
  unfold hbind at 1. unfold lift at 1, new_dict. fold d.
  set (w1 := {| heap := <[fresh (dom (heap w)) := d]> (heap w) |}).
  unfold hbind at 1. unfold lift at 1.
  assert (Hl : heap w1 !! fresh (dom (heap w)) = Some d) by apply lookup_insert_eq.
  rewrite (get_run_own "/api/v3/ticker/price" _ false w1 d Hl) by done.
  fold rq. unfold after_call, w1; cbn [heap clock_reads sent].
  destruct (get_outcome (httpx_send rq)) as [data|e]; [|done].
  unfold hbind, pure, hret.
  destruct (subscript data "price") as [p|e]; [|done].
  destruct (to_float p) as [x|e]; done.
Qed.

(** X4: whatever the symbol text, get_price sends exactly one request: an
    unsigned GET with no body and the API key header, whose URL is the
    ticker path followed by the single query parameter [symbol], the
    upper-cased symbol form-encoded; the encoded value contains no [&], [=],
    [?], [#], [/] or space, and the query decodes to that one parameter.
    The clock is not read and no existing object is changed. *)
Theorem get_price_request (s : string) (w : world) :
  sent (snd (get_price s w)) =
    sent w ++ [ {| req_method := GET;
                   req_url := BASE_URL +:+ "/api/v3/ticker/price" +:+ "?" +:+
                              "symbol=" +:+ quote_plus (str_upper s);
                   req_headers := [("X-MBX-APIKEY"%string, BINANCE_KEY)];
                   req_body := None |} ] /\
  (forall c, c ∈ ["&"; "="; "?"; "#"; "/"; " "]%char ->
             has_char c (quote_plus (str_upper s)) = false) /\
  parse_qsl ("symbol=" +:+ quote_plus (str_upper s)) = [("symbol"%string, str_upper s)] /\
  clock_reads (snd (get_price s w)) = clock_reads w /\
  (forall (l : nat) (d : dict), heap w !! l = Some d ->
                                heap (snd (get_price s w)) !! l = Some d).
Proof.
  rewrite get_price_run. cbn [snd sent clock_reads heap].
  split; [|split; [|split; [|split]]].
  - reflexivity.
  - intros c Hc. apply all_form_safe_no_char; [|apply quote_plus_safe].
    intros c' Hsafe. apply form_safe_not_separator in Hsafe as (? & ? & ? & ? & ? & ?).
    repeat (apply elem_of_cons in Hc as [->|Hc]; [done|]).
    by apply elem_of_nil in Hc.
  - apply (parse_urlencode [("symbol"%string, VStr (str_upper s))]).
  - reflexivity.
  - intros l d Hl. rewrite lookup_insert_ne; [done|].
    intros Heq. apply (is_fresh (dom (heap w))). rewrite Heq.
    apply elem_of_dom. by eexists.
Qed.

(** X5: get_price passes a transport failure and an upstream status of 400
    or more through unchanged; on a successful response it raises KeyError
    when the parsed body is a dict without the key [price], and otherwise
    returns the upper-cased symbol with the price converted by float(). *)
Theorem get_price_outcome (s : string) (w : world) (rq : request) :
  sent (snd (get_price s w)) = sent w ++ [rq] ->
  (forall e, httpx_send rq = NoResponse e ->
     fst (get_price s w) = Throw (Exn (HttpxError e))) /\
  (forall st tx, httpx_send rq = Response st tx -> 400 <= st ->
     fst (get_price s w) = Throw (Exn (HTTPException st tx))) /\
  (forall st tx kv, httpx_send rq = Response st tx -> st < 400 ->
     json_loads tx = Some (JDict kv) ->
     (assoc "price" kv = None -> fst (get_price s w) = Throw (KeyError "price")) /\
     (forall v, assoc "price" kv = Some v ->
        fst (get_price s w) =
          match py_float v with
          | Some x => Return (JDict [("symbol"%string, JStr (str_upper s));
                                     ("price"%string, JNum x)])
          | None => Throw FloatError
          end)).
Proof.
  rewrite get_price_run. cbn [snd fst sent]. intros Hs.
  apply app_inv_head in Hs.
  set (rq' := get_request _ _) in *.
  assert (Hrq : rq' = rq) by congruence. rewrite Hrq. clear Hs Hrq rq'.
  split; [|split].
  - intros e He. by rewrite He.
  - intros st tx He Hst. rewrite He. cbn [get_outcome].
    destruct (Z.leb_spec 400 st); [done|lia].
  - intros st tx kv He Hst Hj. rewrite He. cbn [get_outcome].
    destruct (Z.leb_spec 400 st); [lia|]. unfold parse. rewrite Hj.
    cbn [subscript]. split.
    + intros Hk. by rewrite Hk.
    + intros v Hk. rewrite Hk. unfold to_float. by destruct (py_float v).
Qed.

(** *** get_balance *)

Lemma get_balance_run (w : world) :
  let d := stamp w [] in
  let rq := get_request "/api/v3/account" (_sign d) in
  get_balance w =
  (match get_outcome (httpx_send rq) with
   | Raise e => Throw (Exn e)
   | Ok data =>
       match get_default data "balances" (JList []) with
       | Throw e => Throw e
       | Return bal =>
           match iter_json bal with
           | Throw e => Throw e
           | Return items =>
               match collect items [] with
               | Throw e => Throw e
               | Return out => Return (mkBalances out)
               end
           end
       end
   end,
   after_call w (<[fresh (dom (heap w)) := d]> (heap w)) true rq).
Proof.
  intros d rq. unfold get_balance. unfold hbind at 1. unfold lift at 1.
  rewrite (get_run_fresh "/api/v3/account" None true w I). fold d rq.
  destruct (get_outcome (httpx_send rq)) as [data|e]; [|done].
  unfold hbind, pure, hret.
  destruct (get_default data "balances" (JList [])) as [bal|e]; [|done].
  destruct (iter_json bal) as [items|e]; [|done].
  destruct (collect items []) as [out|e]; done.
Qed.

Lemma balances_set_elem (k k0 : json) (y v0 : float) (acc : list (json * float)) :
  (k0, v0) ∈ balances_set k y acc ->
  (k0, v0) ∈ acc \/ (v0 = y /\ (k0 = k \/ key_eqb k0 k = true)).
Proof.
  induction acc as [|[k' v'] acc IH]; cbn [balances_set].
  - intros Hin. apply list_elem_of_singleton in Hin. injection Hin as -> ->. eauto.
  - destruct (key_eqb k' k) eqn:E; intros Hin; apply elem_of_cons in Hin as [Heq|Hin].
    + injection Heq as -> ->. eauto.
    + left. by right.
    + left. rewrite Heq. by left.
    + destruct (IH Hin) as [Hold|Hnew]; [left; by right|by right].
Qed.

Lemma collect_sound (all items : list json) (acc out : list (json * float)) :
  (forall b, b ∈ items -> b ∈ all) ->
  (forall k v, (k, v) ∈ acc -> backs all k v) ->
  collect items acc = Return out ->
  forall k v, (k, v) ∈ out -> backs all k v.
Proof.
  revert acc. induction items as [|b items IH]; intros acc Hsub Hacc Hc.
  - cbn in Hc. by injection Hc as <-.
  - cbn [collect] in Hc.
    destruct (subscript b "free") as [f|e] eqn:Ef; [|done].
    unfold to_float in Hc. destruct (py_float f) as [x|] eqn:Ex; [|done].
    destruct (float_gt x (S754_zero false)) eqn:Eg.
    + destruct (subscript b "asset") as [kb|e] eqn:Ek; [|done].
      destruct (hashable kb) eqn:Eh; [|done].
      apply (IH (balances_set kb x acc)); [|  |done].
      * intros b' Hb'. apply Hsub. by right.
      * intros k v Hin. apply balances_set_elem in Hin as [Hold|[-> Hk]]; [by apply Hacc|].
        exists b, f, kb. repeat split; try done. apply Hsub. by left.
    + apply (IH acc); [|done|done]. intros b' Hb'. apply Hsub. by right.
Qed.

Lemma collect_skips (items : list json) (acc : list (json * float)) :
  Forall (fun b => exists f x, subscript b "free" = Return f /\ py_float f = Some x /\
                               float_gt x (S754_zero false) = false) items ->
  collect items acc = Return acc.
Proof.
  induction 1 as [|b items (f & x & Hf & Hx & Hg) _ IH]; [done|].
  cbn [collect]. rewrite Hf. unfold to_float. by rewrite Hx, Hg.
Qed.

(** X6: every balance get_balance reports is strictly positive and is
    backed by an entry of the upstream list: an entry whose [free] converts
    to that amount and whose [asset] is the reported key (or a key equal to
    it). Entries whose amount is zero, negative or NaN are never reported. *)
Theorem get_balance_sound (w : world) (out : balance_response) :
  fst (get_balance w) = Return out ->
  exists rq st tx data bal items,
    sent (snd (get_balance w)) = sent w ++ [rq] /\
    httpx_send rq = Response st tx /\ st < 400 /\ json_loads tx = Some data /\
    get_default data "balances" (JList []) = Return bal /\
    iter_json bal = Return items /\
    forall k v, (k, v) ∈ balances out ->
      float_positive v = true /\ backs items k v.
Proof.
  rewrite get_balance_run. cbn [fst snd after_call sent].
  set (rq := get_request _ _). intros Hout.
  destruct (httpx_send rq) as [st tx|e] eqn:Er; [|done]. cbn [get_outcome] in Hout.
  destruct (Z.leb_spec 400 st) as [|Hst]; [done|].
  unfold parse in Hout. destruct (json_loads tx) as [data|] eqn:Ej; [|done].
  destruct (get_default data "balances" (JList [])) as [bal|e] eqn:Eb; [|done].
  destruct (iter_json bal) as [items|e] eqn:Ei; [|done].
  destruct (collect items []) as [l|e] eqn:Ec; [|done].
  injection Hout as <-. cbn [balances].
  exists rq, st, tx, data, bal, items.
  do 6 (split; [done|]). intros k v Hkv.
  assert (Hb : backs items k v).
  { apply (collect_sound items items [] l); [done| |done|done].
    intros k0 v0 Hin. by apply elem_of_nil in Hin. }
  split; [|exact Hb].
  by destruct Hb as (b & f & kb & _ & _ & _ & Hpos & _).
Qed.

(** X7: get_balance sends exactly one request, a signed GET on the account
    path whose query is the timestamp just read from the clock, in plain
    decimal, followed by its signature; it reads the clock once and changes
    no existing object. *)
Theorem get_balance_request (w : world) :
  let ts := str_int (time_ms (clock_reads w)) in
  sent (snd (get_balance w)) =
    sent w ++ [ {| req_method := GET;
                   req_url := BASE_URL +:+ "/api/v3/account" +:+ "?" +:+
                              "timestamp=" +:+ ts +:+ "&signature=" +:+
                              hexdigest (Hmac.digest (encode BINANCE_SECRET)
                                           (encode ("timestamp=" +:+ ts)));
                   req_headers := [("X-MBX-APIKEY"%string, BINANCE_KEY)];
                   req_body := None |} ] /\
  clock_reads (snd (get_balance w)) = S (clock_reads w) /\
  (forall (l : nat) (d : dict), heap w !! l = Some d ->
                                heap (snd (get_balance w)) !! l = Some d).
Proof.
  intros ts. rewrite get_balance_run. cbn [snd after_call sent clock_reads heap].
  split; [|split].
  - unfold ts. rewrite <- (quote_plus_str_int (time_ms (clock_reads w))).
    reflexivity.
  - reflexivity.
  - intros l d Hl. rewrite lookup_insert_ne; [done|].
    intros Heq. apply (is_fresh (dom (heap w))). rewrite Heq.
    apply elem_of_dom. by eexists.
Qed.

(** X8: when the account document has no [balances] key, or when every
    entry of its list has a [free] amount that is not strictly positive,
    get_balance returns an empty mapping without raising; such entries are
    not looked at further, so they need not even carry an [asset]. A
    document that is not a dict raises AttributeError. *)
Theorem get_balance_empty (w : world) (rq : request) (st : Z) (tx : string) (data : json) :
  sent (snd (get_balance w)) = sent w ++ [rq] ->
  httpx_send rq = Response st tx -> st < 400 -> json_loads tx = Some data ->
  (forall kv, data = JDict kv ->
     assoc "balances" kv = None \/
     (exists items, assoc "balances" kv = Some (JList items) /\
        Forall (fun b => exists f x, subscript b "free" = Return f /\
                                     py_float f = Some x /\ float_positive x = false)
               items) ->
     fst (get_balance w) = Return (mkBalances [])) /\
  ((forall kv, data <> JDict kv) -> fst (get_balance w) = Throw AttributeError).
Proof.
  rewrite get_balance_run. cbn [fst snd after_call sent]. intros Hs.
  apply app_inv_head in Hs. set (rq' := get_request _ _) in *.
  assert (Hrq : rq' = rq) by congruence. rewrite Hrq. clear Hs Hrq rq'.
  intros He Hst Hj. rewrite He. cbn [get_outcome].
  destruct (Z.leb_spec 400 st); [lia|]. unfold parse. rewrite Hj. split.
  - intros kv -> [Hnone|(items & Hsome & Hall)]; cbn [get_default].
    + by rewrite Hnone.
    + rewrite Hsome. cbn [iter_json]. by rewrite (collect_skips items [] Hall).
  - intros Hnd. destruct data; try done. by destruct (Hnd l).
Qed.

(** *** The client on its own *)

Lemma fresh_keeps (w : world) (l : nat) (d d' : dict) :
  heap w !! l = Some d -> <[fresh (dom (heap w)) := d']> (heap w) !! l = Some d.
Proof.
  intros Hl. rewrite lookup_insert_ne; [done|].
  intros Heq. apply (is_fresh (dom (heap w))). rewrite Heq.
  apply elem_of_dom. by eexists.
Qed.

(** X9: with signed=false neither operation reads the clock or changes the
    caller's mapping, and what is sent decodes to exactly the caller's
    parameters: no timestamp and no signature are added. For _get the
    text is the query of the URL (no query at all for an empty mapping). *)
Theorem unsigned_call_frame (path : string) (l : nat) (w : world) (d : dict) :
  heap w !! l = Some d ->
  (snd (_post path l false w) =
     {| heap := heap w; clock_reads := clock_reads w;
        sent := sent w ++ [post_request path (urlencode d)] |}) /\
  (d <> [] ->
   snd (_get path (Some l) false w) =
     {| heap := heap w; clock_reads := clock_reads w;
        sent := sent w ++ [get_request path (urlencode d)] |}) /\
  (d = [] ->
   clock_reads (snd (_get path (Some l) false w)) = clock_reads w /\
   heap (snd (_get path (Some l) false w)) !! l = Some [] /\
   sent (snd (_get path (Some l) false w)) =
     sent w ++ [ {| req_method := GET; req_url := BASE_URL +:+ path;
                    req_headers := [("X-MBX-APIKEY"%string, BINANCE_KEY)];
                    req_body := None |} ]) /\
  parse_qsl (urlencode d) = dict_text d.
Proof.
  intros Hl. split; [|split; [|split]].
  - by rewrite (post_run path l false w d Hl).
  - intros Hd. by rewrite (get_run_own path l false w d Hl Hd).
  - intros ->. rewrite (get_run_fresh path (Some l) false w Hl).
    cbn [snd after_call heap clock_reads sent]. split; [done|]. split; [|done].
    by apply fresh_keeps.
  - apply parse_urlencode.
Qed.

(** X10: on a successful response with an empty body _post returns the
    acknowledgement {"ok": True} without parsing anything, whereas _get
    hands the empty text to the JSON parser and returns or raises what the
    parser does. *)
Theorem empty_success_body
    (path : string) (l : nat) (signed : bool) (w : world) (d : dict) (st : Z) :
  heap w !! l = Some d -> st < 400 ->
  (forall rq, sent (snd (_post path l signed w)) = sent w ++ [rq] ->
     httpx_send rq = Response st "" ->
     fst (_post path l signed w) = Ok (JDict [("ok"%string, JBool true)])) /\
  (forall rq, sent (snd (_get path (Some l) signed w)) = sent w ++ [rq] ->
     httpx_send rq = Response st "" ->
     fst (_get path (Some l) signed w) =
       match json_loads "" with
       | Some j => Ok j
       | None => Raise JSONDecodeError
       end).
Proof.
  intros Hl Hst. split.
  - intros rq Hs He. rewrite (post_run path l signed w d Hl) in Hs |- *.
    cbn [fst snd after_call sent] in Hs |- *. apply app_inv_head in Hs.
    set (rq' := post_request _ _) in *.
    assert (Hrq : rq' = rq) by congruence. rewrite Hrq, He. cbn.
    destruct (Z.leb_spec 400 st); [lia|done].
  - intros rq Hs He.
    destruct (get_call path (Some l) signed w) as (rq' & Hs' & Hr).
    { intros l' [= <-]. by eexists. }
    rewrite Hs' in Hs. apply app_inv_head in Hs.
    assert (Hrq : rq' = rq) by congruence. rewrite Hr, Hrq, He. cbn.
    destruct (Z.leb_spec 400 st); [lia|done].
Qed.

(** X11: every request issued by any operation carries the API key header;
    a GET has no body, a POST has a body and the form content type. Stated
    as an invariant of the list of requests sent. *)
Theorem requests_well_formed
    (path : string) (params : option nat) (l : nat) (signed : bool)
    (o : OrderIn) (s : string) (w : world) :
  (forall l', params = Some l' -> is_Some (heap w !! l')) ->
  is_Some (heap w !! l) ->
  Forall well_formed (sent w) ->
  Forall well_formed (sent (snd (_get path params signed w))) /\
  Forall well_formed (sent (snd (_post path l signed w))) /\
  Forall well_formed (sent (snd (create_order o w))) /\
  Forall well_formed (sent (snd (get_price s w))) /\
  Forall well_formed (sent (snd (get_balance w))) /\
  Forall well_formed (sent (snd (ping w))).
Proof.
  intros Hp [d Hl] Hw.
  assert (Hget : forall p q, well_formed (get_request p q)).
  { intros p q. split; [by left|done]. }
  assert (Hpost : forall p b, well_formed (post_request p b)).
  { intros p b. split; [by left|]. split; [by eexists|]. right. by left. }
  split; [|split; [|split; [|split; [|split]]]].
  - destruct params as [l'|].
    + destruct (Hp l' eq_refl) as [[|kv d'] Hd'].
      * rewrite (get_run_fresh path (Some l') signed w Hd').
        apply Forall_app. split; [done|]. by repeat constructor.
      * rewrite (get_run_own path l' signed w _ Hd') by done.
        apply Forall_app. split; [done|]. by repeat constructor.
    + rewrite (get_run_fresh path None signed w I).
      apply Forall_app. split; [done|]. by repeat constructor.
  - rewrite (post_run path l signed w d Hl).
    apply Forall_app. split; [done|]. by repeat constructor.
  - destruct (create_order_call o w) as [(-> & _)|(_ & _ & extra & _ & Hs & _)]; [done|].
    cbv zeta in Hs. rewrite Hs. apply Forall_app. split; [done|]. by repeat constructor.
  - rewrite get_price_run. apply Forall_app. split; [done|]. by repeat constructor.
  - rewrite get_balance_run. apply Forall_app. split; [done|]. by repeat constructor.
  - done.
Qed.

(** *** create_order as a whole *)

(** X12: create_order sends at most one request, and sends one exactly
    when the symbol is allowed, the order is confirmed and the field checks
    pass; it reads the clock once when it sends and never otherwise; it
    changes no existing object; and when the symbol or the confirmation
    check fails it leaves the whole state untouched. *)
Theorem create_order_effects (o : OrderIn) (w : world) :
  (sent (snd (create_order o w)) = sent w \/
   exists rq, sent (snd (create_order o w)) = sent w ++ [rq]) /\
  (sent (snd (create_order o w)) <> sent w <->
     str_upper (symbol o) ∈ ALLOWED_SYMBOLS /\ confirmed o = true /\
     exists extra, checked_fields o = inr extra) /\
  (sent (snd (create_order o w)) = sent w ->
     clock_reads (snd (create_order o w)) = clock_reads w) /\
  (sent (snd (create_order o w)) <> sent w ->
     clock_reads (snd (create_order o w)) = S (clock_reads w)) /\
  (forall (l : nat) (d : dict), heap w !! l = Some d ->
     heap (snd (create_order o w)) !! l = Some d) /\
  (str_upper (symbol o) ∉ ALLOWED_SYMBOLS \/ confirmed o = false ->
     snd (create_order o w) = w).
Proof.
  rewrite create_order_run.
  destruct (bool_decide_reflect (str_upper (symbol o) ∈ ALLOWED_SYMBOLS)) as [Hin|Hout];
    cbn [negb].
  2: { cbn [snd]. split; [by left|]. split; [split; [done|by intros (? & _)]|].
       repeat split; done. }
  destruct (confirmed o) eqn:Hc; cbn [negb].
  2: { cbn [snd]. split; [by left|]. split; [split; [done|by intros (_ & ? & _)]|].
       repeat split; done. }
  cbv zeta. destruct (checked_fields o) as [msg|extra] eqn:Hf;
    cbn [snd with_heap after_call sent clock_reads heap].
  - split; [by left|]. split; [split; [done|by intros (_ & _ & ? & ?)]|].
    split; [done|]. split; [done|].
    split; [intros l d Hl; by apply fresh_keeps|]. by intros [?|?].
  - pose proof (sent_grows (sent w)) as Hg.
    split; [right; by eexists|]. split; [split; [eauto|intros _; apply Hg]|].
    split; [intros Heq; by apply Hg in Heq|]. split; [done|].
    split; [intros l d Hl; by apply fresh_keeps|]. by intros [?|?].
Qed.

(** X13: once create_order has sent its request, an upstream status of
    400 or more is raised with that status and body text; a successful
    empty body gives {"exchange_response": {"ok": True}}; any other
    successful body is parsed and wrapped under [exchange_response], or the
    parser's error is raised. *)
Theorem create_order_outcome (o : OrderIn) (w : world) (rq : request) (st : Z) (tx : string) :
  sent (snd (create_order o w)) = sent w ++ [rq] ->
  httpx_send rq = Response st tx ->
  (400 <= st -> fst (create_order o w) = Raise (HTTPException st tx)) /\
  (st < 400 -> tx = EmptyString ->
     fst (create_order o w) =
       Ok (JDict [("exchange_response"%string, JDict [("ok"%string, JBool true)])])) /\
  (st < 400 -> tx <> EmptyString ->
     fst (create_order o w) =
       match json_loads tx with
       | Some j => Ok (JDict [("exchange_response"%string, j)])
       | None => Raise JSONDecodeError
       end).
Proof.
  intros Hs He.
  destruct (create_order_call o w) as [(Hsent & _)|(_ & _ & extra & _ & Hs' & Hr)].
  { rewrite Hsent in Hs. symmetry in Hs. by apply sent_grows in Hs. }
  cbv zeta in Hs', Hr. set (rq' := post_request _ _) in *.
  rewrite Hs' in Hs. apply app_inv_head in Hs.
  assert (Hrq : rq' = rq) by congruence. rewrite Hr, Hrq, He. cbn [post_outcome].
  split; [|split].
  - intros Hst. destruct (Z.leb_spec 400 st); [done|lia].
  - intros Hst ->. destruct (Z.leb_spec 400 st); [lia|done].
  - intros Hst Htx. destruct (Z.leb_spec 400 st); [lia|].
    destruct tx; [done|]. cbn [nonempty]. unfold parse.
    by destruct (json_loads _).
Qed.

(** X14: create_order reads, besides symbol, side, type and confirmed, only
    quote_amount for MARKET BUY, only quantity for MARKET SELL, and only
    quantity and price for LIMIT: two orders that agree on the fields read
    behave identically, whatever their other fields hold. *)
Theorem create_order_ignores_unread_fields (o o' : OrderIn) (w : world) :
  same_read_fields o o' -> create_order o w = create_order o' w.
Proof.
  intros (Hsym & Hside & Htype & Hconf & Hfields).
  assert (Hcf : checked_fields o = checked_fields o').
  { unfold checked_fields. rewrite <- Htype, <- Hside.
    destruct (type o), (side o); cbn beta iota in Hfields;
      [by rewrite Hfields|by rewrite Hfields|
       destruct Hfields as [-> ->]; done|destruct Hfields as [-> ->]; done]. }
  assert (Hbp : base_params o = base_params o').
  { unfold base_params. congruence. }
  by rewrite !create_order_run, Hsym, Hconf, Hcf, Hbp.
Qed.

(** *** Signing the same mapping again *)

Lemma dict_set_twice (k : string) (v1 v2 : pyval) (d : dict) :
  dict_set k v2 (dict_set k v1 d) = dict_set k v2 d.
Proof.
  induction d as [|[k' v'] d IH]; cbn [dict_set].
  - by rewrite String.eqb_refl.
  - destruct (String.eqb k k') eqn:E; cbn [dict_set].
    + by rewrite String.eqb_refl.
    + by rewrite E, IH.
Qed.

(** X15: when a mapping is used for a second signed _post, the timestamp
    of the first call is replaced, not kept beside the new one: afterwards
    the mapping is what a single call at the second clock reading would
    have left, and the second request is signed over exactly that
    mapping. *)
Theorem repeated_signed_post (path path' : string) (l : nat) (w : world) (d : dict) :
  heap w !! l = Some d ->
  let w1 := snd (_post path l true w) in
  let d2 := dict_set "timestamp" (VInt (time_ms (S (clock_reads w)))) d in
  heap (snd (_post path' l true w1)) !! l = Some d2 /\
  sent (snd (_post path' l true w1)) =
    sent w ++ [post_request path
                 (_sign (dict_set "timestamp" (VInt (time_ms (clock_reads w))) d));
               post_request path' (_sign d2)].
Proof.
  intros Hl w1 d2.
  assert (Hw1 : w1 = after_call w (<[l := stamp w d]> (heap w)) true
                       (post_request path (_sign (stamp w d)))).
  { unfold w1. by rewrite (post_run path l true w d Hl). }
  assert (Hl1 : heap w1 !! l = Some (stamp w d)).
  { rewrite Hw1. cbn [after_call heap]. apply lookup_insert_eq. }
  rewrite (post_run path' l true w1 _ Hl1). cbn [snd after_call heap sent].
  assert (Hd2 : stamp w1 (stamp w d) = d2).
  { unfold stamp, d2. rewrite dict_set_twice. by rewrite Hw1. }
  rewrite Hd2. split; [apply lookup_insert_eq|].
  rewrite Hw1. cbn [after_call sent]. by rewrite <- app_assoc.
Qed.

(** *** The listing of the allowed set *)

Lemma insert_sorted_perm (x : string) (l : list string) :
  Permutation (insert_sorted x l) (x :: l).
Proof.
  induction l as [|y l IH]; cbn [insert_sorted]; [done|].
  destruct (String.leb x y); [done|]. rewrite IH. apply Permutation_swap.
Qed.

Lemma sorted_perm (l : list string) : Permutation (sorted l) l.
Proof.
  unfold sorted. induction l as [|x l IH]; cbn [fold_right]; [done|].
  by rewrite insert_sorted_perm, IH.
Qed.

Lemma insert_sorted_ascending (x : string) (l : list string) :
  ascending l = true -> ascending (insert_sorted x l) = true.
Proof.
  induction l as [|y l IH]; [done|]. intros Hl. cbn [insert_sorted].
  destruct (String.leb x y) eqn:Exy.
  - cbn [ascending]. by rewrite Exy.
  - assert (Hyx : String.leb y x = true).
    { destruct (String.leb_total x y) as [H1|H1]; [congruence|done]. }
    assert (Htl : ascending l = true).
    { destruct l as [|z l]; [done|]. cbn [ascending] in Hl.
      by apply andb_true_iff in Hl as [_ ?]. }
    specialize (IH Htl). destruct l as [|z l].
    + cbn [insert_sorted ascending]. by rewrite Hyx.
    + cbn [ascending] in Hl. apply andb_true_iff in Hl as [Hyz _].
      cbn [insert_sorted] in IH |- *. destruct (String.leb x z).
      * cbn [ascending] in IH |- *. by rewrite Hyx, IH.
      * cbn [ascending] in IH |- *. by rewrite Hyz, IH.
Qed.

(** X16: the list shown in the rejection reason holds the allowed symbols
    and nothing else, each exactly once, in ascending order (byte-wise),
    whatever order the set yields its elements in. *)
Theorem allowed_listing_sorted :
  let listing := sorted (elements ALLOWED_SYMBOLS) in
  (forall s, s ∈ listing <-> s ∈ ALLOWED_SYMBOLS) /\
  ascending listing = true /\ NoDup listing /\
  length listing = size ALLOWED_SYMBOLS /\
  msg_symbol = "Pair non autorisée. Autorisées: " +:+ repr_list str_repr listing.
Proof.
  cbv zeta. split; [|split; [|split; [|split]]].
  - intros s. rewrite elem_of_sorted. apply elem_of_elements.
  - unfold sorted. induction (elements ALLOWED_SYMBOLS) as [|x l IH]; [done|].
    cbn [fold_right]. by apply insert_sorted_ascending.
  - rewrite sorted_perm. apply NoDup_elements.
  - by rewrite sorted_perm.
  - reflexivity.
Qed.

(** *** Reading the [.Nf] text back *)

Lemma digits_value_append (a b : string) (acc : Z) :
  digits_value (a +:+ b) acc =
  match digits_value a acc with
  | Some v => digits_value b v
  | None => None
  end.
Proof.
  revert acc. induction a as [|c a IH]; intros acc; [reflexivity|].
  change (String c a +:+ b) with (String c (a +:+ b)). cbn [digits_value].
  destruct (digit_val c); [apply IH|done].
Qed.

Lemma digit_val_digit_char (n : Z) : digit_val (digit_char n) = Some (n mod 10).
Proof.
  unfold digit_val, digit_char.
  pose proof (Z.mod_pos_bound n 10 ltac:(lia)) as Hb.
  rewrite nat_ascii_embedding by lia.
  replace (Z.of_nat (48 + Z.to_nat (n mod 10))) with (48 + n mod 10) by lia.
  destruct (Z.leb_spec 48 (48 + n mod 10)); [|lia].
  destruct (Z.leb_spec (48 + n mod 10) 57); [|lia].
  cbn [andb]. f_equal. lia.
Qed.

Lemma digits_value_frac (d : nat) (n acc : Z) :
  digits_value (frac_digits d n) acc = Some (acc * 10 ^ Z.of_nat d + n mod 10 ^ Z.of_nat d).
Proof.
  revert n acc. induction d as [|d IH]; intros n acc.
  - cbn [frac_digits digits_value]. rewrite Z.mod_1_r. f_equal. cbn. lia.
  - cbn [frac_digits]. rewrite digits_value_append, IH. cbn [digits_value].
    rewrite digit_val_digit_char. f_equal.
    rewrite Nat2Z.inj_succ, Z.pow_succ_r by lia.
    assert (Hp : 0 < 10 ^ Z.of_nat d) by (apply Z.pow_pos_nonneg; lia).
    rewrite (Z.rem_mul_r n 10 (10 ^ Z.of_nat d)) by lia. lia.
Qed.

Lemma digits_value_uint_acc (u : Decimal.uint) (acc : positive) :
  digits_value (NilEmpty.string_of_uint u) (Zpos acc) = Some (Zpos (Pos.of_uint_acc u acc)).
Proof.
  revert acc. induction u; intros acc; cbn [NilEmpty.string_of_uint digits_value Pos.of_uint_acc];
    [reflexivity|..];
    match goal with
    | |- context [digit_val ?c] =>
        let v := eval vm_compute in (digit_val c) in
        change (digit_val c) with v; cbv beta iota
    end;
    match goal with
    | |- digits_value _ ?z = _ => 
        match goal with
        | |- _ = Some (Zpos (Pos.of_uint_acc _ ?p)) => replace z with (Zpos p) by lia
        end
    end; apply IHu.
Qed.

Lemma digits_value_uint (u : Decimal.uint) :
  digits_value (NilEmpty.string_of_uint u) 0 = Some (Z.of_N (Pos.of_uint u)).
Proof.
  induction u; cbn [NilEmpty.string_of_uint digits_value Pos.of_uint];
    [reflexivity|exact IHu|..];
    match goal with
    | |- context [digit_val ?c] =>
        let v := eval vm_compute in (digit_val c) in
        change (digit_val c) with v; cbv beta iota
    end;
    match goal with
    | |- digits_value _ ?z = Some (Z.of_N (N.pos (Pos.of_uint_acc _ ?p))) =>
        replace z with (Zpos p) by lia
    end; apply digits_value_uint_acc.
Qed.

Lemma digits_value_str_int (a : Z) : 0 <= a -> digits_value (str_int a) 0 = Some a.
Proof.
  intros Ha. unfold str_int, Z.to_int. destruct a as [|p|p]; [reflexivity| |lia].
  cbn [NilZero.string_of_int]. unfold NilZero.string_of_uint.
  pose proof (Unsigned.of_to p) as Hp.
  destruct (Pos.to_uint p) eqn:E;
    try (rewrite digits_value_uint, Hp; reflexivity).
  cbn in Hp. discriminate Hp.
Qed.

Lemma all_digits_no_point (s : string) : all_digits s = true -> has_char "." s = false.
Proof.
  unfold all_digits, has_char. induction (list_ascii_of_string s) as [|c l IH]; [done|].
  cbn [forallb existsb]. intros [Hc Hl]%andb_true_iff. rewrite (IH Hl), orb_false_r.
  destruct c as [[] [] [] [] [] [] [] []]; try discriminate Hc; reflexivity.
Qed.

Lemma unscaled_fixed_digits (d : nat) (n : Z) :
  (0 < d)%nat -> 0 <= n -> unscaled_value (fixed_digits d n) = Some n.
Proof.
  intros Hd Hn. unfold fixed_digits, unscaled_value. destruct d as [|d]; [lia|].
  assert (Hp : 0 < 10 ^ Z.of_nat (S d)) by (apply Z.pow_pos_nonneg; lia).
  assert (Hq : 0 <= n / 10 ^ Z.of_nat (S d)) by (apply Z.div_pos; lia).
  destruct (str_int_digits _ Hq) as [Hdig _].
  change (str_int (n / 10 ^ Z.of_nat (S d)) +:+ "." +:+ frac_digits (S d) n)
    with (str_int (n / 10 ^ Z.of_nat (S d)) +:+ String "." (frac_digits (S d) n)).
  rewrite partition_at_append by (by apply all_digits_no_point).
  cbn [fst snd]. rewrite digits_value_append, digits_value_str_int by done.
  rewrite digits_value_frac. f_equal.
  rewrite (Z.div_mod n (10 ^ Z.of_nat (S d))) at 3 by lia. lia.
Qed.

Lemma round_half_even_nearest (num den : Z) :
  0 <= num -> 0 < den ->
  2 * Z.abs (round_half_even num den * den - num) <= den /\
  (2 * Z.abs (round_half_even num den * den - num) = den ->
   Z.even (round_half_even num den) = true).
Proof.
  intros Hn Hd. unfold round_half_even.
  pose proof (Z.div_mod num den ltac:(lia)) as Hdm.
  pose proof (Z.mod_pos_bound num den Hd) as Hr.
  set (q := num / den) in *. set (r := num mod den) in *.
  destruct (Z.ltb_spec den (2 * r)) as [Hgt|Hle]; cbn [orb].
  - split; [lia|]. intros Heq. lia.
  - destruct (Z.eqb_spec (2 * r) den) as [Heq|Hne]; cbn [andb].
    + destruct (Z.odd q) eqn:Eo.
      * split; [lia|]. intros _. rewrite Z.even_add, <- Z.negb_odd, Eo. reflexivity.
      * split; [lia|]. intros _. by rewrite <- Z.negb_odd, Eo.
    + split; [lia|]. intros Heq. lia.
Qed.

(** X17: for a finite non-zero amount of magnitude m * 2^e, the text made
    by the [.Nf] format is the sign followed by a numeral that, read back
    as a count of units of the last decimal place, is the integer nearest
    to the magnitude times 10^N, a tie going to the even neighbour: the
    forwarded quoteOrderQty, quantity and price differ from the amounts of
    the order by at most half a unit of their last decimal. *)
Theorem format_f_nearest (d : nat) (s : bool) (m : positive) (e : Z) :
  (0 < d)%nat ->
  exists body N,
    format_f d (S754_finite s m e) = sign_str s +:+ body /\
    unscaled_value body = Some N /\
    let num := Zpos m * 2 ^ Z.max e 0 * 10 ^ Z.of_nat d in
    let den := 2 ^ Z.max (- e) 0 in
    2 * Z.abs (N * den - num) <= den /\
    (2 * Z.abs (N * den - num) = den -> Z.even N = true).
Proof.
  intros Hd. exists (fixed_digits d (scaled_round d m e)), (scaled_round d m e).
  split; [reflexivity|]. split; [apply unscaled_fixed_digits; [done|apply scaled_round_nonneg]|].
  cbv zeta. unfold scaled_round.
  assert (Hp : 0 < 10 ^ Z.of_nat d) by (apply Z.pow_pos_nonneg; lia).
  destruct (Z.leb_spec 0 e) as [He|He].
  - rewrite (Z.max_l e 0), (Z.max_r (- e) 0) by lia.
    rewrite Z.pow_0_r, Z.mul_1_r. split; lia.
  - rewrite (Z.max_r e 0), (Z.max_l (- e) 0) by lia.
    rewrite Z.pow_0_r, Z.mul_1_r.
    apply round_half_even_nearest; [lia|apply Z.pow_pos_nonneg; lia].
Qed.

(** *** What a signed call changes, and what it sends *)

Lemma dict_get_set_other (k k0 : string) (v : pyval) (d : dict) :
  k <> k0 -> dict_get k (dict_set k0 v d) = dict_get k d.
Proof.
  intros Hne. induction d as [|[k' v'] d IH]; cbn [dict_set dict_get].
  - by rewrite (proj2 (String.eqb_neq k k0) Hne).
  - destruct (String.eqb k0 k') eqn:E; cbn [dict_get].
    + apply String.eqb_eq in E as <-. by rewrite (proj2 (String.eqb_neq k k0) Hne).
    + by rewrite IH.
Qed.

Lemma dict_set_new (k : string) (v : pyval) (d : dict) :
  dict_get k d = None -> dict_set k v d = d ++ [(k, v)].
Proof.
  induction d as [|[k' v'] d IH]; cbn [dict_set dict_get]; [done|].
  destruct (String.eqb k k'); [done|]. intros Hn. by rewrite (IH Hn).
Qed.

Lemma dict_set_keys (k : string) (v : pyval) (d : dict) :
  dict_get k d <> None -> map fst (dict_set k v d) = map fst d.
Proof.
  induction d as [|[k' v'] d IH]; cbn [dict_set dict_get]; [done|].
  destruct (String.eqb k k') eqn:E.
  - intros _. apply String.eqb_eq in E as <-. reflexivity.
  - intros Hn. cbn [map fst]. by rewrite (IH Hn).
Qed.

(** X18: after a signed _post the mapping it was given is the mapping
    passed in with the timestamp entry set to the clock reading, and nothing
    else has changed: every other object and every other key is as before,
    existing keys keep their order, and a timestamp that was not there is
    appended last. The same holds for a signed _get on a non-empty mapping;
    on an empty mapping or on None it changes no existing object at all. *)
Theorem signed_call_frame (path : string) (l : nat) (w : world) (d : dict) :
  heap w !! l = Some d ->
  let d' := dict_set "timestamp" (VInt (time_ms (clock_reads w))) d in
  heap (snd (_post path l true w)) !! l = Some d' /\
  (d <> [] -> heap (snd (_get path (Some l) true w)) !! l = Some d') /\
  (d = [] -> heap (snd (_get path (Some l) true w)) !! l = Some d) /\
  heap (snd (_get path None true w)) !! l = Some d /\
  (forall (l' : nat) (x : dict), l' <> l -> heap w !! l' = Some x ->
     heap (snd (_post path l true w)) !! l' = Some x /\
     heap (snd (_get path (Some l) true w)) !! l' = Some x /\
     heap (snd (_get path None true w)) !! l' = Some x) /\
  (forall k, k <> "timestamp"%string -> dict_get k d' = dict_get k d) /\
  (dict_get "timestamp" d = None -> d' = d ++ [("timestamp"%string,
                                                 VInt (time_ms (clock_reads w)))]) /\
  (dict_get "timestamp" d <> None -> map fst d' = map fst d).
Proof.
  intros Hl d'. split; [|split; [|split; [|split; [|split; [|split; [|split]]]]]].
  - rewrite (post_run path l true w d Hl). cbn [snd after_call heap].
    apply lookup_insert_eq.
  - intros Hd. rewrite (get_run_own path l true w d Hl Hd). cbn [snd after_call heap].
    apply lookup_insert_eq.
  - intros ->. rewrite (get_run_fresh path (Some l) true w Hl). cbn [snd after_call heap].
    by apply fresh_keeps.
  - rewrite (get_run_fresh path None true w I). cbn [snd after_call heap].
    by apply fresh_keeps.
  - intros l' x Hne Hx. split; [|split].
    + rewrite (post_run path l true w d Hl). cbn [snd after_call heap].
      by rewrite lookup_insert_ne.
    + destruct d as [|kv d0].
      * rewrite (get_run_fresh path (Some l) true w Hl). cbn [snd after_call heap].
        by apply fresh_keeps.
      * rewrite (get_run_own path l true w _ Hl) by done. cbn [snd after_call heap].
        by rewrite lookup_insert_ne.
    + rewrite (get_run_fresh path None true w I). cbn [snd after_call heap].
      by apply fresh_keeps.
  - intros k Hk. by apply dict_get_set_other.
  - apply dict_set_new.
  - apply dict_set_keys.
Qed.

(** X19: the body of a signed _post decodes to the caller's parameters, with
    the timestamp entry holding the clock reading, followed by exactly one
    [signature] parameter, the last one, whose value is the hexadecimal
    HMAC-SHA256 under the secret of everything before [&signature=]. *)
Theorem signed_post_body (path : string) (l : nat) (w : world) (d : dict) :
  heap w !! l = Some d ->
  let d' := dict_set "timestamp" (VInt (time_ms (clock_reads w))) d in
  let sig := hexdigest (Hmac.digest (encode BINANCE_SECRET) (encode (urlencode d'))) in
  exists rq body,
    sent (snd (_post path l true w)) = sent w ++ [rq] /\
    req_body rq = Some body /\
    body = urlencode d' +:+ "&signature=" +:+ sig /\
    parse_qsl body = dict_text d' ++ [("signature"%string, sig)] /\
    dict_get "timestamp" d' = Some (VInt (time_ms (clock_reads w))).
Proof.
  intros Hl d' sig. rewrite (post_run path l true w d Hl).
  cbn [snd after_call sent]. eexists _, _. split; [reflexivity|].
  split; [reflexivity|]. split; [reflexivity|]. split; [apply parse_sign|].
  unfold d'. clear Hl. induction d as [|[k v] d IH]; [done|].
  cbn [dict_set]. destruct (String.eqb "timestamp" k) eqn:E; cbn [dict_get].
  - by rewrite String.eqb_refl.
  - by rewrite E.
Qed.

(** X20: the cap is a strict floating-point comparison, so a configured
    maximum of NaN or of plus infinity rejects nothing: every confirmed
    MARKET BUY order on an allowed symbol with a non-zero quote_amount is
    then forwarded. *)
Theorem cap_disabled (o : OrderIn) (w : world) (q : float) :
  MAX_QUOTE_TRADE_USDT = S754_nan \/ MAX_QUOTE_TRADE_USDT = S754_infinity false ->
  type o = MARKET -> side o = BUY ->
  str_upper (symbol o) ∈ ALLOWED_SYMBOLS -> confirmed o = true ->
  quote_amount o = Some q -> float_bool q = true ->
  float_gt q MAX_QUOTE_TRADE_USDT = false /\
  sent (snd (create_order o w)) =
    sent w ++ [post_request "/api/v3/order"
      (_sign [("symbol"%string, VStr (str_upper (symbol o)));
              ("side"%string, VStr "BUY"); ("type"%string, VStr "MARKET");
              ("quoteOrderQty"%string, VStr (format_f 2 q));
              ("timestamp"%string, VInt (time_ms (clock_reads w)))])].
Proof.
  intros Hmax Ht Hs Hin Hc Hq Hb.
  assert (Hgt : float_gt q MAX_QUOTE_TRADE_USDT = false).
  { unfold float_gt. destruct Hmax as [-> | ->]; cbn [float_value];
      destruct (float_value q) as [|[]|]; done. }
  split; [exact Hgt|].
  destruct (create_order_forwards o w
    [("quoteOrderQty"%string, VStr (format_f 2 q))] Hin Hc) as [Hsent _].
  { unfold checked_fields. by rewrite Ht, Hs, Hq, Hb, Hgt. }
  rewrite Hsent. unfold base_params. rewrite Ht, Hs. reflexivity.
Qed.

(** *** What the exchange reads in a forwarded order *)

Lemma checked_fields_shape (o : OrderIn) (extra : dict) :
  checked_fields o = inr extra ->
  dict_get "timestamp" (base_params o ++ extra) = None /\
  map fst extra =
    match type o, side o with
    | MARKET, BUY => ["quoteOrderQty"%string]
    | MARKET, SELL => ["quantity"%string]
    | LIMIT, _ => ["quantity"; "price"; "timeInForce"]%string
    end.
Proof.
  unfold checked_fields, base_params.
  destruct (type o), (side o).
  - destruct (quote_amount o) as [q|]; [|done]. destruct (float_bool q); [|done].
    destruct (float_gt q MAX_QUOTE_TRADE_USDT); [done|]. by intros [= <-].
  - destruct (quantity o) as [q|]; [|done]. destruct (float_bool q); [|done].
    by intros [= <-].
  - destruct (quantity o) as [q|]; [|done]. destruct (price o) as [p|]; [|done].
    destruct (float_bool q && float_bool p); [|done]. by intros [= <-].
  - destruct (quantity o) as [q|]; [|done]. destruct (price o) as [p|]; [|done].
    destruct (float_bool q && float_bool p); [|done]. by intros [= <-].
Qed.

(** X21: the body of a forwarded order decodes to symbol (upper-cased),
    side, type, then the fields of its shape (quoteOrderQty for MARKET BUY,
    quantity for MARKET SELL, quantity, price and timeInForce for LIMIT),
    then the timestamp read from the clock in plain decimal, then the
    signature over all that precedes it, and nothing else, whatever
    characters the allowed symbol contains. *)
Theorem order_body_decodes (o : OrderIn) (w : world) (extra : dict) :
  str_upper (symbol o) ∈ ALLOWED_SYMBOLS -> confirmed o = true ->
  checked_fields o = inr extra ->
  let ts := time_ms (clock_reads w) in
  let d := base_params o ++ extra ++ [("timestamp"%string, VInt ts)] in
  exists rq body,
    sent (snd (create_order o w)) = sent w ++ [rq] /\
    req_method rq = POST /\ req_body rq = Some body /\
    parse_qsl body =
      [("symbol"%string, str_upper (symbol o)); ("side"%string, side_str (side o));
       ("type"%string, type_str (type o))] ++ dict_text extra ++
      [("timestamp"%string, str_int ts);
       ("signature"%string,
        hexdigest (Hmac.digest (encode BINANCE_SECRET) (encode (urlencode d))))] /\
    map fst extra =
      match type o, side o with
      | MARKET, BUY => ["quoteOrderQty"%string]
      | MARKET, SELL => ["quantity"%string]
      | LIMIT, _ => ["quantity"; "price"; "timeInForce"]%string
      end.
Proof.
  intros Hin Hc Hf ts d.
  destruct (create_order_forwards o w extra Hin Hc Hf) as [Hsent _].
  destruct (checked_fields_shape o extra Hf) as [Hnone Hkeys].
  assert (Hd : stamp w (base_params o ++ extra) = d).
  { unfold stamp, d. rewrite (dict_set_new _ _ _ Hnone). by rewrite <- app_assoc. }
  cbv zeta in Hsent. rewrite Hd in Hsent.
  exists (post_request "/api/v3/order" (_sign d)), (_sign d).
  split; [exact Hsent|]. split; [reflexivity|]. split; [reflexivity|].
  split; [|exact Hkeys].
  rewrite parse_sign. unfold d, dict_text. rewrite !map_app, <- !app_assoc. reflexivity.
Qed.

End Server.

(** ** The cap and the other order shapes *)

Lemma checked_fields_no_cap (MAX MAX' : float) (float_str : float -> string) (o : OrderIn) :
  (type o = LIMIT /\ opt_bool (quantity o) = true /\ opt_bool (price o) = true) \/
  (type o = MARKET /\ side o = SELL /\ opt_bool (quantity o) = true) ->
  checked_fields MAX float_str o = checked_fields MAX' float_str o /\
  exists extra, checked_fields MAX float_str o = inr extra.
Proof.
  unfold checked_fields.
  intros [(Ht & Hq & Hp)|(Ht & Hs & Hq)]; rewrite Ht; [|rewrite Hs].
  - destruct (quantity o) as [q|]; [|done]. destruct (price o) as [p|]; [|done].
    cbn in Hq, Hp. rewrite Hq, Hp. cbn [andb]. destruct (side o); eauto.
  - destruct (quantity o) as [q|]; [|done]. cbn in Hq. rewrite Hq. eauto.
Qed.

(** C9 (amended): a confirmed order on a symbol whose upper-case form is
    allowed, of type LIMIT with quantity and price present and non-zero, or
    of type MARKET and side SELL with quantity present and non-zero, is
    forwarded to the exchange in one POST request whatever its amounts, and
    the handler behaves the same under any two values of the maximum quote
    trade size. *)
Theorem cap_only_on_market_buy
    (KEY SECRET BASE : string) (ALLOWED : gset string) (MAX MAX' : float)
    (str_upper : string -> string) (float_str : float -> string)
    (str_repr : string -> string) (json_loads : string -> option json)
    (time_ms : nat -> Z) (httpx_send : request -> reply)
    (o : OrderIn) (w : world) :
  str_upper (symbol o) ∈ ALLOWED -> confirmed o = true ->
  (type o = LIMIT /\ opt_bool (quantity o) = true /\ opt_bool (price o) = true) \/
  (type o = MARKET /\ side o = SELL /\ opt_bool (quantity o) = true) ->
  (exists rq,
     sent (snd (create_order KEY SECRET BASE ALLOWED MAX str_upper float_str
                  str_repr json_loads time_ms httpx_send o w)) = sent w ++ [rq] /\
     req_method rq = POST /\ req_url rq = BASE +:+ "/api/v3/order") /\
  create_order KEY SECRET BASE ALLOWED MAX str_upper float_str str_repr
    json_loads time_ms httpx_send o w =
  create_order KEY SECRET BASE ALLOWED MAX' str_upper float_str str_repr
    json_loads time_ms httpx_send o w.
Proof.
  intros Hin Hc Hshape.
  destruct (checked_fields_no_cap MAX MAX' float_str o Hshape) as [Heq [extra Hx]].
  rewrite !create_order_run, bool_decide_eq_true_2, Hc by done.
  cbn [negb]. cbv zeta. rewrite <- Heq, Hx. split; [|done].
  eexists. cbn [snd after_call sent]. split; [reflexivity|]. done.
Qed.

(** ** The handlers at work on the sample deployment *)

Abbreviation sample_create_order send :=
  (create_order Sample.KEY Sample.SECRET Sample.BASE Sample.ALLOWED Sample.MAX
     ascii_upper Sample.float_str Sample.str_repr Sample.json_loads
     Sample.time_ms send).
Abbreviation sample_get send :=
  (_get Sample.KEY Sample.SECRET Sample.BASE Sample.json_loads Sample.time_ms send).
Abbreviation sample_post send :=
  (_post Sample.KEY Sample.SECRET Sample.BASE Sample.json_loads Sample.time_ms send).

Lemma sample_allowed (s : string) :
  bool_decide (s ∈ Sample.ALLOWED) = true -> s ∈ Sample.ALLOWED.
Proof. apply bool_decide_eq_true_1. Defined.

(** The scenario of the specification: 50 with a cap of 100. *)
Example scenario_market_buy_50 :
  sample_create_order Sample.exchange_ok
    (Sample.order "BTCUSDT" BUY MARKET (Some (float_of_Z 50)) None None true) Sample.w0
  = (Ok (JDict [("exchange_response"%string, JStr "{}")]),
     {| heap := {[ 0%nat := [("symbol"%string, VStr "BTCUSDT"); ("side"%string, VStr "BUY");
                             ("type"%string, VStr "MARKET");
                             ("quoteOrderQty"%string, VStr "50.00");
                             ("timestamp"%string, VInt 1700000000000)] ]};
        clock_reads := 1;
        sent := [ {| req_method := POST;
                     req_url := "https://testnet.binance.vision/api/v3/order";
                     req_headers := [("X-MBX-APIKEY"%string, "test-key"%string);
                                     ("Content-Type"%string,
                                      "application/x-www-form-urlencoded"%string)];
                     req_body := Some "symbol=BTCUSDT&side=BUY&type=MARKET&quoteOrderQty=50.00&timestamp=1700000000000&signature=e459ae12c1882a64080350fa61682abc0f445591e41775c9cf0f159d765c99c8"%string |} ] |}).
Proof. vm_compute. reflexivity. Qed.

(** The scenario of the specification: 150 with a cap of 100. *)
Example scenario_market_buy_150 :
  fst (sample_create_order Sample.exchange_ok
         (Sample.order "BTCUSDT" BUY MARKET (Some (float_of_Z 150)) None None true) Sample.w0)
    = Raise (HTTPException 400 "Montant > limite 100.0 USDT.") /\
  sent (snd (sample_create_order Sample.exchange_ok
         (Sample.order "BTCUSDT" BUY MARKET (Some (float_of_Z 150)) None None true) Sample.w0))
    = [].
Proof. vm_compute. split; reflexivity. Qed.

Lemma sample_not_allowed (s : string) :
  bool_decide (s ∈ Sample.ALLOWED) = false -> s ∉ Sample.ALLOWED.
Proof. apply bool_decide_eq_false_1. Defined.

(** Amounts written as binary64 stores them (53-bit mantissa) against the
    cap of 100: 100.5 and 150.0 are rejected, 100.0 is forwarded. *)
Example cap_on_binary64_amounts :
  fst (sample_create_order Sample.exchange_ok
         (Sample.order "BTCUSDT" BUY MARKET
            (Some (S754_finite false 7072058789855232 (-46))) None None true) Sample.w0)
    = Raise (HTTPException 400 "Montant > limite 100.0 USDT.") /\
  fst (sample_create_order Sample.exchange_ok
         (Sample.order "BTCUSDT" BUY MARKET
            (Some (S754_finite false 5277655813324800 (-45))) None None true) Sample.w0)
    = Raise (HTTPException 400 "Montant > limite 100.0 USDT.") /\
  heap (snd (sample_create_order Sample.exchange_ok
         (Sample.order "BTCUSDT" BUY MARKET
            (Some (S754_finite false 7036874417766400 (-46))) None None true) Sample.w0))
    !! 0%nat
    = Some [("symbol"%string, VStr "BTCUSDT"); ("side"%string, VStr "BUY");
            ("type"%string, VStr "MARKET"); ("quoteOrderQty"%string, VStr "100.00");
            ("timestamp"%string, VInt 1700000000000)].
Proof. vm_compute. repeat split. Qed.

(** *** Instances of the theorems *)

Lemma validation_failure_is_local_witness :
(ascii_upper "xrpusdt" ∉ Sample.ALLOWED) /\
  sent (snd (sample_create_order Sample.exchange_ok
    (Sample.order "xrpusdt" BUY MARKET (Some (float_of_Z 50)) None None true) Sample.w0))
  = sent Sample.w0.
Proof.
  assert (H : ascii_upper "xrpusdt" ∉ Sample.ALLOWED)
    by (apply sample_not_allowed; vm_compute; reflexivity).
  split; [exact H|].
  apply (validation_failure_is_local Sample.KEY Sample.SECRET Sample.BASE Sample.ALLOWED
    Sample.MAX ascii_upper Sample.float_str Sample.str_repr Sample.json_loads
    Sample.time_ms Sample.exchange_ok
    (Sample.order "xrpusdt" BUY MARKET (Some (float_of_Z 50)) None None true) Sample.w0).
  left. exact H.
Defined.

Lemma sign_spec_witness :
  urlencode [("n"%string, VStr "1")] = urlencode [("n"%string, VInt 1)] /\
  _sign Sample.SECRET [("n"%string, VStr "1")] = _sign Sample.SECRET [("n"%string, VInt 1)].
Proof.
  split; [reflexivity|].
  apply (sign_spec Sample.SECRET [("n"%string, VInt 1)]). reflexivity.
Defined.

Lemma unconfirmed_is_rejected_witness :
  confirmed (Sample.order "BTCUSDT" BUY MARKET (Some (float_of_Z 50)) None None false) = false /\
  ascii_upper "BTCUSDT" ∈ Sample.ALLOWED /\
  sample_create_order Sample.exchange_ok
    (Sample.order "BTCUSDT" BUY MARKET (Some (float_of_Z 50)) None None false) Sample.w0
  = (Raise (HTTPException 400 "Confirmation manquante."), Sample.w0).
Proof.
  assert (H : ascii_upper "BTCUSDT" ∈ Sample.ALLOWED)
    by (apply sample_allowed; vm_compute; reflexivity).
  split; [reflexivity|]. split; [exact H|].
  apply (unconfirmed_is_rejected Sample.KEY Sample.SECRET Sample.BASE Sample.ALLOWED
    Sample.MAX ascii_upper Sample.float_str Sample.str_repr Sample.json_loads
    Sample.time_ms Sample.exchange_ok
    (Sample.order "BTCUSDT" BUY MARKET (Some (float_of_Z 50)) None None false)
    (mkOrderBody "BTCUSDT" BUY MARKET None None None None) Sample.w0);
    [reflexivity|exact H].
Defined.

Lemma sample_w1_ref : is_Some (heap Sample.w1 !! 0%nat).
Proof. exists [("symbol"%string, VStr "BTCUSDT")]. vm_compute. reflexivity. Defined.

Lemma sample_no_params (w : world) (l' : nat) :
  @None nat = Some l' -> is_Some (heap w !! l').
Proof. intros H. discriminate H. Defined.

Lemma unreachable_is_distinct_witness :
  is_Some (heap Sample.w1 !! 0%nat) /\
  exists rq,
    sent (snd (sample_post Sample.exchange_down "/api/v3/order" 0%nat true Sample.w1))
      = sent Sample.w1 ++ [rq] /\
    forall e, Sample.exchange_down rq = NoResponse e ->
      fst (sample_post Sample.exchange_down "/api/v3/order" 0%nat true Sample.w1)
        = Raise (HttpxError e).
Proof.
  split; [exact sample_w1_ref|].
  apply (unreachable_is_distinct Sample.KEY Sample.SECRET Sample.BASE Sample.ALLOWED
    Sample.MAX ascii_upper Sample.float_str Sample.str_repr Sample.json_loads
    Sample.time_ms Sample.exchange_down "/api/v3/order" None 0%nat true
    (Sample.order "BTCUSDT" BUY MARKET None None None true) Sample.w1
    (sample_no_params Sample.w1) sample_w1_ref).
Defined.

Lemma upstream_rejection_verbatim_witness :
  is_Some (heap Sample.w1 !! 0%nat) /\
  exists rq,
    sent (snd (sample_get Sample.exchange_rejects "/api/v3/account" None true Sample.w1))
      = sent Sample.w1 ++ [rq] /\
    forall st tx, Sample.exchange_rejects rq = Response st tx -> 400 <= st ->
      fst (sample_get Sample.exchange_rejects "/api/v3/account" None true Sample.w1)
        = Raise (HTTPException st tx).
Proof.
  split; [exact sample_w1_ref|].
  apply (upstream_rejection_verbatim Sample.KEY Sample.SECRET Sample.BASE
    Sample.json_loads Sample.time_ms Sample.exchange_rejects "/api/v3/account"
    None 0%nat true Sample.w1 (sample_no_params Sample.w1) sample_w1_ref).
Defined.

Lemma market_buy_amount_gate_witness :
  ascii_upper "btcusdt" ∈ Sample.ALLOWED /\
  float_bool (S754_finite false 7036874417766400 (-46)) = true /\
  float_eqb (S754_finite false 7036874417766400 (-46)) Sample.MAX = true /\
  float_gt (S754_finite false 7036874417766400 (-46)) Sample.MAX = false /\
  sent (snd (sample_create_order Sample.exchange_ok
    (Sample.order "btcusdt" BUY MARKET (Some (S754_finite false 7036874417766400 (-46)))
       None None true) Sample.w0))
  = sent Sample.w0 ++
    [ {| req_method := POST; req_url := Sample.BASE +:+ "/api/v3/order";
         req_headers := [("X-MBX-APIKEY"%string, Sample.KEY);
                         ("Content-Type"%string,
                          "application/x-www-form-urlencoded"%string)];
         req_body := Some (_sign Sample.SECRET
           [("symbol"%string, VStr (ascii_upper "btcusdt"));
            ("side"%string, VStr "BUY"); ("type"%string, VStr "MARKET");
            ("quoteOrderQty"%string, VStr "100.00");
            ("timestamp"%string, VInt (Sample.time_ms 0))]) |} ].
Proof.
  assert (H : ascii_upper "btcusdt" ∈ Sample.ALLOWED)
    by (apply sample_allowed; vm_compute; reflexivity).
  split; [exact H|]. split; [reflexivity|]. split; [reflexivity|].
  destruct (market_buy_amount_gate Sample.KEY Sample.SECRET Sample.BASE Sample.ALLOWED
    Sample.MAX ascii_upper Sample.float_str Sample.str_repr Sample.json_loads
    Sample.time_ms Sample.exchange_ok
    (Sample.order "btcusdt" BUY MARKET (Some (S754_finite false 7036874417766400 (-46)))
       None None true) Sample.w0
    eq_refl eq_refl H eq_refl) as [_ Hamount].
  destruct (Hamount _ eq_refl eq_refl) as (_ & Hforward & Hequal).
  split; [exact (Hequal eq_refl)|].
  destruct (Hforward (Hequal eq_refl)) as [Hsent _]. exact Hsent.
Defined.

Lemma limit_and_sell_fields_witness :
  ascii_upper "ethusdt" ∈ Sample.ALLOWED /\
  fixed_decimal 6 (format_f 6 (S754_finite false 5 (-1))) /\
  fixed_decimal 2 (format_f 2 (float_of_Z 2000)).
Proof.
  assert (H : ascii_upper "ethusdt" ∈ Sample.ALLOWED)
    by (apply sample_allowed; vm_compute; reflexivity).
  split; [exact H|].
  destruct (limit_and_sell_fields Sample.KEY Sample.SECRET Sample.BASE Sample.ALLOWED
    Sample.MAX ascii_upper Sample.float_str Sample.str_repr Sample.json_loads
    Sample.time_ms Sample.exchange_ok
    (Sample.order "ethusdt" SELL LIMIT None (Some (S754_finite false 5 (-1)))
       (Some (float_of_Z 2000)) true) Sample.w0 H eq_refl) as [Hlimit _].
  destruct (Hlimit eq_refl) as [_ Hfwd].
  destruct (Hfwd _ _ eq_refl eq_refl eq_refl eq_refl) as (_ & Hq & Hp).
  split; [apply Hq|apply Hp]; reflexivity.
Defined.


Lemma cap_only_on_market_buy_witness :
  ascii_upper "btcusdt" ∈ Sample.ALLOWED /\
  float_gt (float_of_Z 1000000) Sample.MAX = true /\
  sample_create_order Sample.exchange_ok
    (Sample.order "btcusdt" SELL MARKET None (Some (float_of_Z 1000000)) None true) Sample.w0
  = create_order Sample.KEY Sample.SECRET Sample.BASE Sample.ALLOWED (float_of_Z 1)
      ascii_upper Sample.float_str Sample.str_repr Sample.json_loads Sample.time_ms
      Sample.exchange_ok
      (Sample.order "btcusdt" SELL MARKET None (Some (float_of_Z 1000000)) None true) Sample.w0.
Proof.
  assert (H : ascii_upper "btcusdt" ∈ Sample.ALLOWED)
    by (apply sample_allowed; vm_compute; reflexivity).
  split; [exact H|]. split; [reflexivity|].
  apply (cap_only_on_market_buy Sample.KEY Sample.SECRET Sample.BASE Sample.ALLOWED
    Sample.MAX (float_of_Z 1) ascii_upper Sample.float_str Sample.str_repr
    Sample.json_loads Sample.time_ms Sample.exchange_ok
    (Sample.order "btcusdt" SELL MARKET None (Some (float_of_Z 1000000)) None true)
    Sample.w0 H eq_refl).
  right. repeat split.
Defined.


(** *** Where the claims as stated fail *)

(** C1: a negative quote_amount is not positive, yet the order is accepted
    and forwarded. *)
Lemma negative_amount_is_forwarded :
  float_positive (float_of_Z (-5)) = false /\
  fst (sample_create_order Sample.exchange_ok
         (Sample.order "BTCUSDT" BUY MARKET (Some (float_of_Z (-5))) None None true)
         Sample.w0)
    = Ok (JDict [("exchange_response"%string, JStr "{}")]) /\
  map req_body
    (sent (snd (sample_create_order Sample.exchange_ok
         (Sample.order "BTCUSDT" BUY MARKET (Some (float_of_Z (-5))) None None true)
         Sample.w0)))
    = [Some "symbol=BTCUSDT&side=BUY&type=MARKET&quoteOrderQty=-5.00&timestamp=1700000000000&signature=030f98ca16664320f43d33999a0a434fd79b02fd5ae4d03648ea96e39971ac2c"%string].
Proof. vm_compute. repeat split. Qed.

(** C7: an infinite quantity passes the checks of a MARKET SELL order and
    is forwarded as the text inf, which has no decimals. *)
Lemma infinite_quantity_is_forwarded :
  map req_body
    (sent (snd (sample_create_order Sample.exchange_ok
         (Sample.order "ETHUSDT" SELL MARKET None (Some (S754_infinity false)) None true)
         Sample.w0)))
    = [Some "symbol=ETHUSDT&side=SELL&type=MARKET&quantity=inf&timestamp=1700000000000&signature=0a3cd0f887cfa32ffdb1862dee9fab722b408e1345e1862e345060d317ef0c8c"%string] /\
  heap (snd (sample_create_order Sample.exchange_ok
         (Sample.order "ETHUSDT" SELL MARKET None (Some (S754_infinity false)) None true)
         Sample.w0)) !! 0%nat
    = Some [("symbol"%string, VStr "ETHUSDT"); ("side"%string, VStr "SELL");
            ("type"%string, VStr "MARKET"); ("quantity"%string, VStr "inf");
            ("timestamp"%string, VInt 1700000000000)] /\
  ~ fixed_decimal 6 "inf".
Proof.
  split; [vm_compute; reflexivity|]. split; [vm_compute; reflexivity|].
  intros H. apply fixed_decimal_has_point in H. vm_compute in H. discriminate H.
Qed.


(** C9: a MARKET SELL order whose quantity is present and zero is rejected,
    nothing is sent. *)
Lemma zero_quantity_is_rejected :
  quantity (Sample.order "BTCUSDT" SELL MARKET None (Some (S754_zero false)) None true)
    = Some (S754_zero false) /\
  fst (sample_create_order Sample.exchange_ok
         (Sample.order "BTCUSDT" SELL MARKET None (Some (S754_zero false)) None true)
         Sample.w0)
    = Raise (HTTPException 400 "Pour SELL MARKET, fournir quantity.") /\
  sent (snd (sample_create_order Sample.exchange_ok
         (Sample.order "BTCUSDT" SELL MARKET None (Some (S754_zero false)) None true)
         Sample.w0)) = [].
Proof. vm_compute. repeat split. Qed.


(** ** Instances of the further properties *)

Abbreviation sample_get_price loads send :=
  (get_price Sample.KEY Sample.SECRET Sample.BASE ascii_upper loads Sample.time_ms send
     SampleJson.py_float).
Abbreviation sample_get_balance loads send :=
  (get_balance Sample.KEY Sample.SECRET Sample.BASE loads Sample.time_ms send
     SampleJson.py_float SampleJson.py_scalar_eq).

Lemma get_price_outcome_witness :
  sent (snd (sample_get_price SampleJson.loads_ticker Sample.exchange_ok "btcusdt" Sample.w0))
    = sent Sample.w0 ++
      [ {| req_method := GET;
           req_url := "https://testnet.binance.vision/api/v3/ticker/price?symbol=BTCUSDT";
           req_headers := [("X-MBX-APIKEY"%string, "test-key"%string)];
           req_body := None |} ] /\
  fst (sample_get_price SampleJson.loads_ticker Sample.exchange_ok "btcusdt" Sample.w0)
    = Return (JDict [("symbol"%string, JStr "BTCUSDT");
                     ("price"%string, JNum (float_of_Z 50000))]).
Proof.
  assert (Hs : sent (snd (sample_get_price SampleJson.loads_ticker Sample.exchange_ok
                            "btcusdt" Sample.w0))
    = sent Sample.w0 ++
      [ {| req_method := GET;
           req_url := "https://testnet.binance.vision/api/v3/ticker/price?symbol=BTCUSDT";
           req_headers := [("X-MBX-APIKEY"%string, "test-key"%string)];
           req_body := None |} ]) by (vm_compute; reflexivity).
  split; [exact Hs|].
  destruct (get_price_outcome Sample.KEY Sample.SECRET Sample.BASE ascii_upper
    SampleJson.loads_ticker Sample.time_ms Sample.exchange_ok SampleJson.py_float
    "btcusdt" Sample.w0 _ Hs) as (_ & _ & Hok).
  destruct (Hok 200 "{}"%string _ eq_refl ltac:(lia) eq_refl) as [_ Hprice].
  exact (Hprice _ eq_refl).
Defined.

Lemma get_balance_sound_witness :
  fst (sample_get_balance SampleJson.loads_account Sample.exchange_ok Sample.w0)
    = Return (mkBalances [(JStr "BTC", SampleJson.half)]) /\
  float_positive SampleJson.half = true.
Proof.
  assert (Hr : fst (sample_get_balance SampleJson.loads_account Sample.exchange_ok Sample.w0)
    = Return (mkBalances [(JStr "BTC", SampleJson.half)])) by (vm_compute; reflexivity).
  split; [exact Hr|].
  destruct (get_balance_sound Sample.KEY Sample.SECRET Sample.BASE
    SampleJson.loads_account Sample.time_ms Sample.exchange_ok SampleJson.py_float
    SampleJson.py_scalar_eq Sample.w0 _ Hr) as (rq & st & tx & data & bal & items & H).
  destruct H as (_ & _ & _ & _ & _ & _ & Hall).
  destruct (Hall (JStr "BTC") SampleJson.half) as [Hpos _]; [left|exact Hpos].
Defined.

Lemma get_balance_empty_witness :
  sent (snd (sample_get_balance SampleJson.loads_idle_account Sample.exchange_ok Sample.w0))
    = sent Sample.w0 ++
      [ {| req_method := GET;
           req_url := "https://testnet.binance.vision/api/v3/account?timestamp=1700000000000&signature=dccf2651b1d8329665bfddb0798eccd4650d986a9cfe5547b2f5822131e7620b";
           req_headers := [("X-MBX-APIKEY"%string, "test-key"%string)];
           req_body := None |} ] /\
  fst (sample_get_balance SampleJson.loads_idle_account Sample.exchange_ok Sample.w0)
    = Return (mkBalances []).
Proof.
  assert (Hs : sent (snd (sample_get_balance SampleJson.loads_idle_account
                            Sample.exchange_ok Sample.w0))
    = sent Sample.w0 ++
      [ {| req_method := GET;
           req_url := "https://testnet.binance.vision/api/v3/account?timestamp=1700000000000&signature=dccf2651b1d8329665bfddb0798eccd4650d986a9cfe5547b2f5822131e7620b";
           req_headers := [("X-MBX-APIKEY"%string, "test-key"%string)];
           req_body := None |} ]) by (vm_compute; reflexivity).
  split; [exact Hs|].
  destruct (get_balance_empty Sample.KEY Sample.SECRET Sample.BASE
    SampleJson.loads_idle_account Sample.time_ms Sample.exchange_ok SampleJson.py_float
    SampleJson.py_scalar_eq Sample.w0 _ 200 "{}"%string SampleJson.idle_account
    Hs eq_refl ltac:(lia) eq_refl) as [Hempty _].
  apply (Hempty _ eq_refl). right. eexists. split; [reflexivity|].
  repeat constructor.
  - exists (JNum (S754_zero false)), (S754_zero false). repeat split.
  - exists (JNum (float_of_Z (-1))), (float_of_Z (-1)). repeat split.
Defined.

Lemma sample_w1_lookup :
  heap Sample.w1 !! 0%nat = Some [("symbol"%string, VStr "BTCUSDT")].
Proof. vm_compute. reflexivity. Defined.

Lemma unsigned_call_frame_witness :
  heap Sample.w1 !! 0%nat = Some [("symbol"%string, VStr "BTCUSDT")] /\
  snd (sample_post Sample.exchange_ok "/api/v3/order" 0%nat false Sample.w1) =
    {| heap := heap Sample.w1; clock_reads := clock_reads Sample.w1;
       sent := sent Sample.w1 ++
               [post_request Sample.KEY Sample.BASE "/api/v3/order"
                  (urlencode [("symbol"%string, VStr "BTCUSDT")])] |}.
Proof.
  split; [exact sample_w1_lookup|].
  apply (unsigned_call_frame Sample.KEY Sample.SECRET Sample.BASE Sample.json_loads
    Sample.time_ms Sample.exchange_ok "/api/v3/order" 0%nat Sample.w1 _ sample_w1_lookup).
Defined.

Lemma empty_success_body_witness :
  heap Sample.w1 !! 0%nat = Some [("symbol"%string, VStr "BTCUSDT")] /\
  200 < 400 /\
  fst (sample_post SampleJson.exchange_empty "/api/v3/order" 0%nat true Sample.w1)
    = Ok (JDict [("ok"%string, JBool true)]).
Proof.
  split; [exact sample_w1_lookup|]. split; [lia|].
  destruct (empty_success_body Sample.KEY Sample.SECRET Sample.BASE Sample.json_loads
    Sample.time_ms SampleJson.exchange_empty "/api/v3/order" 0%nat true Sample.w1 _ 200
    sample_w1_lookup ltac:(lia)) as [Hpost _].
  apply (Hpost (post_request Sample.KEY Sample.BASE "/api/v3/order"
                  (_sign Sample.SECRET
                     [("symbol"%string, VStr "BTCUSDT");
                      ("timestamp"%string, VInt 1700000000000)])));
    [vm_compute; reflexivity|reflexivity].
Defined.

Lemma requests_well_formed_witness :
  is_Some (heap Sample.w1 !! 0%nat) /\
  Forall (well_formed Sample.KEY) (sent Sample.w1) /\
  Forall (well_formed Sample.KEY)
    (sent (snd (sample_create_order Sample.exchange_ok
       (Sample.order "BTCUSDT" BUY MARKET (Some (float_of_Z 50)) None None true)
       Sample.w1))).
Proof.
  assert (Hw : Forall (well_formed Sample.KEY) (sent Sample.w1)) by constructor.
  split; [exact sample_w1_ref|]. split; [exact Hw|].
  apply (requests_well_formed Sample.KEY Sample.SECRET Sample.BASE Sample.ALLOWED
    Sample.MAX ascii_upper Sample.float_str Sample.str_repr Sample.json_loads
    Sample.time_ms Sample.exchange_ok SampleJson.py_float SampleJson.py_scalar_eq
    "/api/v3/order" None 0%nat true
    (Sample.order "BTCUSDT" BUY MARKET (Some (float_of_Z 50)) None None true)
    "btcusdt" Sample.w1 (sample_no_params Sample.w1) sample_w1_ref Hw).
Defined.

Lemma create_order_outcome_witness :
  map req_url (sent (snd (sample_create_order Sample.exchange_rejects
       (Sample.order "BTCUSDT" BUY MARKET (Some (float_of_Z 50)) None None true)
       Sample.w0)))
    = ["https://testnet.binance.vision/api/v3/order"%string] /\
  fst (sample_create_order Sample.exchange_rejects
       (Sample.order "BTCUSDT" BUY MARKET (Some (float_of_Z 50)) None None true)
       Sample.w0)
    = Raise (HTTPException 400 "code=-2010 msg=insufficient balance").
Proof.
  split; [vm_compute; reflexivity|].
  apply (create_order_outcome Sample.KEY Sample.SECRET Sample.BASE Sample.ALLOWED
    Sample.MAX ascii_upper Sample.float_str Sample.str_repr Sample.json_loads
    Sample.time_ms Sample.exchange_rejects
    (Sample.order "BTCUSDT" BUY MARKET (Some (float_of_Z 50)) None None true)
    Sample.w0
    (post_request Sample.KEY Sample.BASE "/api/v3/order"
       (_sign Sample.SECRET
          [("symbol"%string, VStr "BTCUSDT"); ("side"%string, VStr "BUY");
           ("type"%string, VStr "MARKET"); ("quoteOrderQty"%string, VStr "50.00");
           ("timestamp"%string, VInt 1700000000000)]))
    400 "code=-2010 msg=insufficient balance");
    [vm_compute; reflexivity|reflexivity|lia].
Defined.

Lemma create_order_ignores_unread_fields_witness :
  same_read_fields
    (Sample.order "BTCUSDT" BUY MARKET (Some (float_of_Z 50)) None None true)
    (Sample.order "BTCUSDT" BUY MARKET (Some (float_of_Z 50))
       (Some (float_of_Z 7)) (Some (float_of_Z 9)) true) /\
  sample_create_order Sample.exchange_ok
    (Sample.order "BTCUSDT" BUY MARKET (Some (float_of_Z 50)) None None true) Sample.w0
  = sample_create_order Sample.exchange_ok
      (Sample.order "BTCUSDT" BUY MARKET (Some (float_of_Z 50))
         (Some (float_of_Z 7)) (Some (float_of_Z 9)) true) Sample.w0.
Proof.
  assert (Hsame : same_read_fields
    (Sample.order "BTCUSDT" BUY MARKET (Some (float_of_Z 50)) None None true)
    (Sample.order "BTCUSDT" BUY MARKET (Some (float_of_Z 50))
       (Some (float_of_Z 7)) (Some (float_of_Z 9)) true)) by (repeat split).
  split; [exact Hsame|].
  apply (create_order_ignores_unread_fields Sample.KEY Sample.SECRET Sample.BASE
    Sample.ALLOWED Sample.MAX ascii_upper Sample.float_str Sample.str_repr
    Sample.json_loads Sample.time_ms Sample.exchange_ok _ _ Sample.w0 Hsame).
Defined.

Lemma repeated_signed_post_witness :
  heap Sample.w1 !! 0%nat = Some [("symbol"%string, VStr "BTCUSDT")] /\
  heap (snd (sample_post Sample.exchange_ok "/api/v3/order" 0%nat true
          (snd (sample_post Sample.exchange_ok "/api/v3/order" 0%nat true Sample.w1))))
    !! 0%nat
  = Some [("symbol"%string, VStr "BTCUSDT"); ("timestamp"%string, VInt 1700000000001)].
Proof.
  split; [exact sample_w1_lookup|].
  destruct (repeated_signed_post Sample.KEY Sample.SECRET Sample.BASE Sample.json_loads
    Sample.time_ms Sample.exchange_ok "/api/v3/order" "/api/v3/order" 0%nat Sample.w1 _
    sample_w1_lookup) as [Hheap _].
  exact Hheap.
Defined.

Lemma format_f_nearest_witness :
  (0 < 2)%nat /\
  exists body N,
    format_f 2 (S754_finite false 1 (-3)) = sign_str false +:+ body /\
    unscaled_value body = Some N /\
    2 * Z.abs (N * 2 ^ Z.max (- -3) 0 - 1 * 2 ^ Z.max (-3) 0 * 10 ^ Z.of_nat 2)
      <= 2 ^ Z.max (- -3) 0.
Proof.
  split; [lia|].
  destruct (format_f_nearest 2 false 1 (-3) ltac:(lia)) as (body & N & Hf & Hv & Hn & _).
  exists body, N. split; [exact Hf|]. split; [exact Hv|exact Hn].
Defined.


Lemma signed_call_frame_witness :
  heap Sample.w1 !! 0%nat = Some [("symbol"%string, VStr "BTCUSDT")] /\
  heap (snd (sample_post Sample.exchange_ok "/api/v3/order" 0%nat true Sample.w1)) !! 0%nat
  = Some (dict_set "timestamp" (VInt (Sample.time_ms (clock_reads Sample.w1)))
            [("symbol"%string, VStr "BTCUSDT")]) /\
  dict_set "timestamp" (VInt (Sample.time_ms (clock_reads Sample.w1)))
    [("symbol"%string, VStr "BTCUSDT")]
  = [("symbol"%string, VStr "BTCUSDT")] ++
    [("timestamp"%string, VInt (Sample.time_ms (clock_reads Sample.w1)))].
Proof.
  split; [exact sample_w1_lookup|].
  destruct (signed_call_frame Sample.KEY Sample.SECRET Sample.BASE Sample.json_loads
    Sample.time_ms Sample.exchange_ok "/api/v3/order" 0%nat Sample.w1 _
    sample_w1_lookup) as (Hpost & _ & _ & _ & _ & _ & Hnew & _).
  split; [exact Hpost|]. apply Hnew. reflexivity.
Defined.

Lemma signed_post_body_witness :
  heap Sample.w1 !! 0%nat = Some [("symbol"%string, VStr "BTCUSDT")] /\
  exists rq body,
    sent (snd (sample_post Sample.exchange_ok "/api/v3/order" 0%nat true Sample.w1))
      = sent Sample.w1 ++ [rq] /\
    req_body rq = Some body /\
    parse_qsl body =
      [("symbol"%string, "BTCUSDT"%string);
       ("timestamp"%string, "1700000000000"%string);
       ("signature"%string,
        hexdigest (Hmac.digest (encode Sample.SECRET)
                     (encode "symbol=BTCUSDT&timestamp=1700000000000")))].
Proof.
  split; [exact sample_w1_lookup|].
  destruct (signed_post_body Sample.KEY Sample.SECRET Sample.BASE Sample.json_loads
    Sample.time_ms Sample.exchange_ok "/api/v3/order" 0%nat Sample.w1 _
    sample_w1_lookup) as (rq & body & Hs & Hb & _ & Hp & _).
  exists rq, body. split; [exact Hs|]. split; [exact Hb|]. exact Hp.
Defined.

Lemma cap_disabled_witness :
  ascii_upper "btcusdt" ∈ Sample.ALLOWED /\
  float_bool (float_of_Z 1000000) = true /\
  float_gt (float_of_Z 1000000) S754_nan = false /\
  sent (snd (create_order Sample.KEY Sample.SECRET Sample.BASE Sample.ALLOWED S754_nan
               ascii_upper Sample.float_str Sample.str_repr Sample.json_loads
               Sample.time_ms Sample.exchange_ok
               (Sample.order "btcusdt" BUY MARKET (Some (float_of_Z 1000000)) None None true)
               Sample.w0))
  = sent Sample.w0 ++
    [post_request Sample.KEY Sample.BASE "/api/v3/order"
       (_sign Sample.SECRET
          [("symbol"%string, VStr (ascii_upper "btcusdt"));
           ("side"%string, VStr "BUY"); ("type"%string, VStr "MARKET");
           ("quoteOrderQty"%string, VStr (format_f 2 (float_of_Z 1000000)));
           ("timestamp"%string, VInt (Sample.time_ms (clock_reads Sample.w0)))])].
Proof.
  assert (H : ascii_upper "btcusdt" ∈ Sample.ALLOWED)
    by (apply sample_allowed; vm_compute; reflexivity).
  split; [exact H|]. split; [reflexivity|].
  apply (cap_disabled Sample.KEY Sample.SECRET Sample.BASE Sample.ALLOWED S754_nan
    ascii_upper Sample.float_str Sample.str_repr Sample.json_loads Sample.time_ms
    Sample.exchange_ok
    (Sample.order "btcusdt" BUY MARKET (Some (float_of_Z 1000000)) None None true)
    Sample.w0 (float_of_Z 1000000) (or_introl eq_refl) eq_refl eq_refl H eq_refl
    eq_refl eq_refl).
Defined.


Lemma order_body_decodes_witness :
  ascii_upper "ethusdt" ∈ Sample.ALLOWED /\
  exists rq body,
    sent (snd (sample_create_order Sample.exchange_ok
      (Sample.order "ethusdt" SELL LIMIT None (Some SampleJson.half)
         (Some (float_of_Z 2000)) true) Sample.w0)) = sent Sample.w0 ++ [rq] /\
    req_body rq = Some body /\
    map fst (parse_qsl body) =
      ["symbol"; "side"; "type"; "quantity"; "price"; "timeInForce"; "timestamp";
       "signature"]%string /\
    firstn 7 (map snd (parse_qsl body)) =
      ["ETHUSDT"; "SELL"; "LIMIT"; "0.500000"; "2000.00"; "GTC"; "1700000000000"]%string.
Proof.
  assert (H : ascii_upper "ethusdt" ∈ Sample.ALLOWED)
    by (apply sample_allowed; vm_compute; reflexivity).
  split; [exact H|].
  destruct (order_body_decodes Sample.KEY Sample.SECRET Sample.BASE Sample.ALLOWED
    Sample.MAX ascii_upper Sample.float_str Sample.str_repr Sample.json_loads
    Sample.time_ms Sample.exchange_ok
    (Sample.order "ethusdt" SELL LIMIT None (Some SampleJson.half)
       (Some (float_of_Z 2000)) true) Sample.w0 _ H eq_refl eq_refl)
    as (rq & body & Hs & _ & Hb & Hp & _).
  exists rq, body. split; [exact Hs|]. split; [exact Hb|].
  rewrite Hp. split; reflexivity.
Defined.
